(** * Camera web client: control logic of the React components

    A shallow embedding of the client-side control logic of
    [cam-app/src/components]: the [CameraStream] component (the version with
    picture capture and recording), the [CameraModeSelector] component and
    the [Gallery] component.

    React state is a record, one field per [useState] cell.  An [async]
    handler is cut at its [await fetch(...)]: the part before the await
    is a state transformer that also says which request goes out, the part
    after it is a state transformer indexed by the reply.  Values a closure
    captured when the handler was created (such as [isStreaming] inside
    [restartCamera]) are stored in the suspended continuation.  The module
    [App] puts the handlers together into one event loop that logs every
    request handed to [fetch] and every assignment to the image source. *)

From stdpp Require Import base list strings pretty.
From Stdlib Require Import ZArith Lia.

Local Open Scope Z_scope.
Local Open Scope string_scope.
Local Open Scope list_scope.

(** ** JavaScript helpers *)

(** Outcome of [await fetch(url)] followed, where the handler does so, by
    [await response.json()].
    - [Rejected]: the [fetch] promise rejects (network failure);
    - [NotOk e]: a response with [response.ok = false]; [e] is the [error]
      field of its body, [None] when the body does not parse or has none
      (the handlers use [response.json().catch(() => ({}))]);
    - [Ok b]: a response with [response.ok = true]; [b] is the parsed body,
      [None] when [response.json()] rejects. *)
Inductive Reply (A : Type) : Type :=
  | Rejected
  | NotOk (e : option string)
  | Ok (b : option A).
Arguments Rejected {A}.
Arguments NotOk {A} e.
Arguments Ok {A} b.

(** A transport failure: the promise rejects or the response is not OK. *)
Definition transport_failed {A} (r : Reply A) : bool :=
  match r with
  | Rejected | NotOk _ => true
  | Ok _ => false
  end.

(** [errorData.error || fallback] on strings: the empty string is falsy. *)
Definition or_default (e : option string) (fallback : string) : string :=
  match e with
  | Some s => if String.eqb s "" then fallback else s
  | None => fallback
  end.

(** Numbers.  The JavaScript numbers of the components (sizes, durations,
    widths, time stamps) are doubles; they are embedded as integers.  The
    embedding agrees with the code on integral values as long as every
    value and every sum computed from them stays within [-2^53, 2^53],
    where double arithmetic is exact; statements about sums of sizes carry
    that bound where they need it. *)

(** [n || 0] on numbers. *)
Definition or_zero (n : Z) : Z := if Z.eqb n 0 then 0 else n.

(** [x.toFixed(1)] on an integral number below [10^21] in magnitude, where
    [toFixed] prints all digits; it is only used for the text of the
    recording-saved message. *)
Definition toFixed1 (n : Z) : string := (pretty n ++ ".0")%string.

Definition CAMERA_SERVER_URL : string := "https://cam1.hrzhkm.xyz".

(** The requests the components hand to [fetch]. *)
Inductive Request : Type :=
  | GET_status
  | GET_start
  | GET_stop
  | GET_restart
  | POST_capture
  | POST_recording_start
  | POST_recording_stop
  | GET_modes
  | POST_mode (mode_id : string)
  | GET_pictures
  | GET_recordings.

(** ** CameraModeSelector.tsx *)

Module Selector.

Record CameraMode : Type := mkCameraMode {
  id : string;
  name : string;
  width : Z;
  height : Z;
  framerate : Z;
  description : string
}.

(** The [current_mode] object of [CameraModeData]. *)
Module Current.
Record t : Type := mk {
  width : Z;
  height : Z;
  framerate : Z;
  name : string
}.
End Current.

Record CameraModeData : Type := mkCameraModeData {
  available_modes : list CameraMode;
  current_mode : Current.t
}.

Record State : Type := mkState {
  modes : list CameraMode;
  currentMode : option CameraMode;
  selectedModeId : string;
  isLoading : bool;
  isChanging : bool;
  error : option string
}.

Definition init : State :=
  {| modes := []; currentMode := None; selectedModeId := "";
     isLoading := false; isChanging := false; error := None |}.

Definition setModes (v : list CameraMode) (s : State) : State :=
  {| modes := v; currentMode := currentMode s;
     selectedModeId := selectedModeId s; isLoading := isLoading s;
     isChanging := isChanging s; error := error s |}.
Definition setCurrentMode (v : option CameraMode) (s : State) : State :=
  {| modes := modes s; currentMode := v;
     selectedModeId := selectedModeId s; isLoading := isLoading s;
     isChanging := isChanging s; error := error s |}.
Definition setSelectedModeId (v : string) (s : State) : State :=
  {| modes := modes s; currentMode := currentMode s;
     selectedModeId := v; isLoading := isLoading s;
     isChanging := isChanging s; error := error s |}.
Definition setIsLoading (v : bool) (s : State) : State :=
  {| modes := modes s; currentMode := currentMode s;
     selectedModeId := selectedModeId s; isLoading := v;
     isChanging := isChanging s; error := error s |}.
Definition setIsChanging (v : bool) (s : State) : State :=
  {| modes := modes s; currentMode := currentMode s;
     selectedModeId := selectedModeId s; isLoading := isLoading s;
     isChanging := v; error := error s |}.
Definition setError (v : option string) (s : State) : State :=
  {| modes := modes s; currentMode := currentMode s;
     selectedModeId := selectedModeId s; isLoading := isLoading s;
     isChanging := isChanging s; error := v |}.

(** [fetchModes], up to the await: the request is [GET_modes]. *)
Definition fetchModes_begin (s : State) : State :=
  setError None (setIsLoading true s).

(** The predicate of [data.available_modes.find] in [fetchModes]. *)
Definition same_geometry (c : Current.t) (m : CameraMode) : bool :=
  Z.eqb (width m) (Current.width c)
  && Z.eqb (height m) (Current.height c)
  && Z.eqb (framerate m) (Current.framerate c).

(** [fetchModes], after the await. *)
Definition fetchModes_resume (r : Reply CameraModeData) (s : State) : State :=
  setIsLoading false
    match r with
    | Ok (Some data) =>
        let s1 := setModes (available_modes data) s in
        match List.find (same_geometry (current_mode data))
                        (available_modes data) with
        | Some current => setSelectedModeId (id current)
                            (setCurrentMode (Some current) s1)
        | None => s1
        end
    | NotOk _ => setError (Some "Failed to fetch camera modes") s
    | Ok None | Rejected => setError (Some "Cannot connect to camera server") s
    end.

(** The guard on the first line of [changeMode]:
    [!modeId || modeId === currentMode?.id]. *)
Definition changeMode_skips (modeId : string) (s : State) : bool :=
  String.eqb modeId ""
  || match currentMode s with
     | Some m => String.eqb modeId (id m)
     | None => false
     end.

(** [changeMode], up to the await.  [None]: the function returned on its
    first line; [Some (s', q)]: request [q] goes out from state [s']. *)
Definition changeMode_begin (modeId : string) (s : State)
  : option (State * Request) :=
  if changeMode_skips modeId s then None
  else Some (setError None (setIsChanging true s), POST_mode modeId).

(** [changeMode], after the await.  [modes0] is the [modes] array the
    closure captured, [notify] tells whether an [onModeChange] prop was
    given.  The second component is the argument [onModeChange] is called
    with, if it is called. *)
Definition changeMode_resume (modes0 : list CameraMode) (notify : bool)
    (modeId : string) (r : Reply unit) (s : State)
  : State * option CameraMode :=
  let '(s1, call) :=
    match r with
    | Ok (Some _) =>
        match List.find (fun mode => String.eqb (id mode) modeId) modes0 with
        | Some newMode =>
            (setSelectedModeId modeId (setCurrentMode (Some newMode) s),
             if notify then Some newMode else None)
        | None => (s, None)
        end
    | NotOk e =>
        (setError (Some (or_default e "Failed to change camera mode")) s, None)
    | Ok None | Rejected =>
        (setError (Some "Error changing camera mode") s, None)
    end in
  (setIsChanging false s1, call).

(** [disabled] of the [Select]; the whole selector is replaced by a spinner
    while [isLoading]. *)
Definition select_disabled (disabled : bool) (s : State) : bool :=
  isLoading s || disabled || isChanging s.

(** [disabled] of the Refresh Modes button (not rendered while loading). *)
Definition refresh_disabled (disabled : bool) (s : State) : bool :=
  isLoading s || isChanging s || disabled.

End Selector.

(** ** CameraStream component *)

Module Stream.

Record CameraMode : Type := mkCameraMode {
  width : Z;
  height : Z;
  framerate : Z;
  name : string
}.

Module RecordingStatus.
Record t : Type := mk {
  recording : bool;
  filename : option string;
  duration : Z;
  start_time : option Z
}.
End RecordingStatus.

Inductive Power : Type := active | inactive.

(** The body of [GET /api/camera/status].  [recording] is optional because
    [checkStatus] tests [if (status.recording)] before reading it. *)
Record CameraStatus : Type := mkCameraStatus {
  status : Power;
  streaming : bool;
  last_access : option Z;
  current_mode : option CameraMode;
  recording : option RecordingStatus.t
}.

(** The body of [POST /api/camera/capture]. *)
Module Captured.
Record t : Type := mk { filename : string; url : string; timestamp : string }.
End Captured.

(** The body of [POST /api/camera/recording/start]. *)
Module Started.
Record t : Type := mk { filename : string }.
End Started.

(** The body of [POST /api/camera/recording/stop]. *)
Module Stopped.
Record t : Type := mk { filename : string; url : string; duration : Z }.
End Stopped.

Record State : Type := mkState {
  isStreaming : bool;
  cameraStatus : option CameraStatus;
  isLoading : bool;
  error : option string;
  isServerConnected : bool;
  isCapturing : bool;
  lastCapturedImage : option Captured.t;
  captureSuccess : option string;
  isRecording : bool;
  recordingDuration : Z;
  lastRecording : option Stopped.t;
  recordingSuccess : option string
}.

Definition init : State :=
  {| isStreaming := false; cameraStatus := None; isLoading := false;
     error := None; isServerConnected := false; isCapturing := false;
     lastCapturedImage := None; captureSuccess := None;
     isRecording := false; recordingDuration := 0;
     lastRecording := None; recordingSuccess := None |}.

Definition setIsStreaming (v : bool) (s : State) : State :=
  mkState v (cameraStatus s) (isLoading s) (error s) (isServerConnected s)
    (isCapturing s) (lastCapturedImage s) (captureSuccess s) (isRecording s)
    (recordingDuration s) (lastRecording s) (recordingSuccess s).
Definition setCameraStatus (v : option CameraStatus) (s : State) : State :=
  mkState (isStreaming s) v (isLoading s) (error s) (isServerConnected s)
    (isCapturing s) (lastCapturedImage s) (captureSuccess s) (isRecording s)
    (recordingDuration s) (lastRecording s) (recordingSuccess s).
Definition setIsLoading (v : bool) (s : State) : State :=
  mkState (isStreaming s) (cameraStatus s) v (error s) (isServerConnected s)
    (isCapturing s) (lastCapturedImage s) (captureSuccess s) (isRecording s)
    (recordingDuration s) (lastRecording s) (recordingSuccess s).
Definition setError (v : option string) (s : State) : State :=
  mkState (isStreaming s) (cameraStatus s) (isLoading s) v
    (isServerConnected s) (isCapturing s) (lastCapturedImage s)
    (captureSuccess s) (isRecording s) (recordingDuration s)
    (lastRecording s) (recordingSuccess s).
Definition setIsServerConnected (v : bool) (s : State) : State :=
  mkState (isStreaming s) (cameraStatus s) (isLoading s) (error s) v
    (isCapturing s) (lastCapturedImage s) (captureSuccess s) (isRecording s)
    (recordingDuration s) (lastRecording s) (recordingSuccess s).
Definition setIsCapturing (v : bool) (s : State) : State :=
  mkState (isStreaming s) (cameraStatus s) (isLoading s) (error s)
    (isServerConnected s) v (lastCapturedImage s) (captureSuccess s)
    (isRecording s) (recordingDuration s) (lastRecording s)
    (recordingSuccess s).
Definition setLastCapturedImage (v : option Captured.t) (s : State) : State :=
  mkState (isStreaming s) (cameraStatus s) (isLoading s) (error s)
    (isServerConnected s) (isCapturing s) v (captureSuccess s)
    (isRecording s) (recordingDuration s) (lastRecording s)
    (recordingSuccess s).
Definition setCaptureSuccess (v : option string) (s : State) : State :=
  mkState (isStreaming s) (cameraStatus s) (isLoading s) (error s)
    (isServerConnected s) (isCapturing s) (lastCapturedImage s) v
    (isRecording s) (recordingDuration s) (lastRecording s)
    (recordingSuccess s).
Definition setIsRecording (v : bool) (s : State) : State :=
  mkState (isStreaming s) (cameraStatus s) (isLoading s) (error s)
    (isServerConnected s) (isCapturing s) (lastCapturedImage s)
    (captureSuccess s) v (recordingDuration s) (lastRecording s)
    (recordingSuccess s).
Definition setRecordingDuration (v : Z) (s : State) : State :=
  mkState (isStreaming s) (cameraStatus s) (isLoading s) (error s)
    (isServerConnected s) (isCapturing s) (lastCapturedImage s)
    (captureSuccess s) (isRecording s) v (lastRecording s)
    (recordingSuccess s).
Definition setLastRecording (v : option Stopped.t) (s : State) : State :=
  mkState (isStreaming s) (cameraStatus s) (isLoading s) (error s)
    (isServerConnected s) (isCapturing s) (lastCapturedImage s)
    (captureSuccess s) (isRecording s) (recordingDuration s) v
    (recordingSuccess s).
Definition setRecordingSuccess (v : option string) (s : State) : State :=
  mkState (isStreaming s) (cameraStatus s) (isLoading s) (error s)
    (isServerConnected s) (isCapturing s) (lastCapturedImage s)
    (captureSuccess s) (isRecording s) (recordingDuration s)
    (lastRecording s) v.

(** *** Suspended computations and effects *)

(** What runs after an awaited [checkStatus()] returns to its caller. *)
Inductive After : Type :=
  | Nothing
  | RestartRest (isStreaming0 : bool)
  | ModeChangeRest (isStreaming0 : bool).

(** A handler suspended at its [await fetch]. *)
Inductive Cont : Type :=
  | K_checkStatus (a : After)
  | K_startStreaming
  | K_stopStreaming
  | K_restartCamera (isStreaming0 : bool)
  | K_capturePicture
  | K_startRecording
  | K_stopRecording.

Definition request_of (k : Cont) : Request :=
  match k with
  | K_checkStatus _ => GET_status
  | K_startStreaming => GET_start
  | K_stopStreaming => GET_stop
  | K_restartCamera _ => GET_restart
  | K_capturePicture => POST_capture
  | K_startRecording => POST_recording_start
  | K_stopRecording => POST_recording_stop
  end.

(** The callbacks given to [setTimeout]. *)
Inductive Timer : Type :=
  | T_openStream
  | T_checkStatus
  | T_reopenAfterRestart
  | T_retryStream (isStreaming0 : bool)
  | T_clearCaptureSuccess
  | T_clearRecordingSuccess.

(** What is assigned to [imgRef.current.src]. *)
Inductive ImgSrc : Type :=
  | StreamUrl (t : Z)
  | EmptySrc.

Definition render_src (u : ImgSrc) : string :=
  match u with
  | StreamUrl t =>
      (CAMERA_SERVER_URL ++ "/api/stream?t=" ++ pretty t)%string
  | EmptySrc => ""
  end.

Inductive Effect : Type :=
  | Fetch (k : Cont)
  | SetTimeout (t : Timer) (ms : Z)
  | SetSrc (u : ImgSrc).

(** [imgRef.current] is the [<img>] element, which the component renders
    exactly when [isStreaming] holds; it is [null] otherwise. *)
Definition imgRef_current (s : State) : bool := isStreaming s.

(** *** checkStatus *)

(** [checkStatus] changes no state before its await. *)
Definition checkStatus_begin (s : State) : State * list Effect :=
  (s, [Fetch (K_checkStatus Nothing)]).

Definition checkStatus_resume (r : Reply CameraStatus) (s : State) : State :=
  match r with
  | Ok (Some status) =>
      let s1 := setError None
                  (setIsServerConnected true
                     (setCameraStatus (Some status) s)) in
      match recording status with
      | Some rs =>
          setRecordingDuration (or_zero (RecordingStatus.duration rs))
            (setIsRecording (RecordingStatus.recording rs) s1)
      | None => s1
      end
  | NotOk _ =>
      setError (Some "Camera server not responding")
        (setIsServerConnected false s)
  | Ok None | Rejected =>
      setError
        (Some "Cannot connect to camera server. Make sure it's running on port 5000.")
        (setIsServerConnected false s)
  end.

(** *** startStreaming *)

Definition startStreaming_begin (s : State) : State * list Effect :=
  (setError None (setIsLoading true s), [Fetch K_startStreaming]).

Definition startStreaming_resume (r : Reply unit) (s : State)
  : State * list Effect :=
  match r with
  | Ok _ =>
      (setIsLoading false (setIsStreaming true s),
       [SetTimeout T_openStream 1000])
  | NotOk e =>
      (setIsLoading false
         (setError (Some (or_default e "Failed to start camera streaming")) s),
       [])
  | Rejected =>
      (setIsLoading false
         (setError
            (Some "Error starting camera stream. Make sure the camera server is running.")
            s),
       [])
  end.

(** The outer [setTimeout] callback of [startStreaming]. *)
Definition openStream_fire (now : Z) (s : State) : State * list Effect :=
  (s, (if imgRef_current s then [SetSrc (StreamUrl now)] else [])
      ++ [SetTimeout T_checkStatus 2000]).

(** *** stopStreaming *)

Definition stopStreaming_begin (s : State) : State * list Effect :=
  (setError None (setIsLoading true s), [Fetch K_stopStreaming]).

Definition stopStreaming_resume (r : Reply unit) (s : State)
  : State * list Effect :=
  match r with
  | Ok _ =>
      (setIsLoading false (setIsStreaming false s),
       if imgRef_current s then [SetSrc EmptySrc] else [])
  | NotOk _ =>
      (setIsLoading false
         (setError (Some "Failed to stop camera streaming") s), [])
  | Rejected =>
      (setIsLoading false
         (setError (Some "Error stopping camera stream") s), [])
  end.

(** *** restartCamera *)

(** The closure reads [isStreaming] after the await, so the value at the
    time of the click travels with the continuation. *)
Definition restartCamera_begin (s : State) : State * list Effect :=
  (setError None (setIsLoading true s),
   [Fetch (K_restartCamera (isStreaming s))]).

Definition restartCamera_resume (isStreaming0 : bool) (r : Reply unit)
    (s : State) : State * list Effect :=
  match r with
  | Ok _ => (s, [Fetch (K_checkStatus (RestartRest isStreaming0))])
  | NotOk _ =>
      (setIsLoading false (setError (Some "Failed to restart camera") s), [])
  | Rejected =>
      (setIsLoading false (setError (Some "Error restarting camera") s), [])
  end.

(** What follows [await checkStatus()] inside [restartCamera]. *)
Definition restartCamera_rest (isStreaming0 : bool) (s : State)
  : State * list Effect :=
  (setIsLoading false s,
   if isStreaming0 then [SetTimeout T_reopenAfterRestart 1000] else []).

Definition reopenAfterRestart_fire (now : Z) (s : State)
  : State * list Effect :=
  (s, if imgRef_current s then [SetSrc (StreamUrl now)] else []).

(** *** handleImageError, handleImageLoad *)

Definition handleImageError (s : State) : State * list Effect :=
  if imgRef_current s && isStreaming s then
    (s, [SetTimeout (T_retryStream (isStreaming s)) 2000])
  else
    (setIsStreaming false
       (setError
          (Some "Failed to load camera stream. Try restarting the camera.") s),
     []).

Definition retryStream_fire (isStreaming0 : bool) (now : Z) (s : State)
  : State * list Effect :=
  (s, if imgRef_current s && isStreaming0
      then [SetSrc (StreamUrl now)] else []).

Definition handleImageLoad (s : State) : State := setError None s.

(** *** capturePicture *)

Definition capturePicture_begin (s : State) : State * list Effect :=
  (setCaptureSuccess None (setError None (setIsCapturing true s)),
   [Fetch K_capturePicture]).

Definition capturePicture_resume (r : Reply Captured.t) (s : State)
  : State * list Effect :=
  match r with
  | Ok (Some result) =>
      (setIsCapturing false
         (setCaptureSuccess
            (Some ("Picture captured: " ++ Captured.filename result)%string)
            (setLastCapturedImage (Some result) s)),
       [SetTimeout T_clearCaptureSuccess 5000])
  | NotOk e =>
      (setIsCapturing false
         (setError (Some (or_default e "Failed to capture picture")) s), [])
  | Ok None | Rejected =>
      (setIsCapturing false
         (setError
            (Some "Error capturing picture. Make sure the camera server is running.")
            s),
       [])
  end.

(** *** startRecording, stopRecording *)

Definition startRecording_begin (s : State) : State * list Effect :=
  (setRecordingSuccess None (setError None s), [Fetch K_startRecording]).

Definition startRecording_resume (r : Reply Started.t) (s : State)
  : State * list Effect :=
  match r with
  | Ok (Some result) =>
      (setRecordingSuccess
         (Some ("Recording started: " ++ Started.filename result)%string)
         (setRecordingDuration 0 (setIsRecording true s)),
       [SetTimeout T_clearRecordingSuccess 3000])
  | NotOk e =>
      (setError (Some (or_default e "Failed to start recording")) s, [])
  | Ok None | Rejected =>
      (setError
         (Some "Error starting recording. Make sure the camera server is running.")
         s,
       [])
  end.

Definition stopRecording_begin (s : State) : State * list Effect :=
  (setRecordingSuccess None (setError None s), [Fetch K_stopRecording]).

Definition stopRecording_resume (r : Reply Stopped.t) (s : State)
  : State * list Effect :=
  match r with
  | Ok (Some result) =>
      (setRecordingSuccess
         (Some ("Recording saved: " ++ Stopped.filename result ++ " ("
                ++ toFixed1 (Stopped.duration result) ++ "s)")%string)
         (setLastRecording (Some result)
            (setRecordingDuration 0 (setIsRecording false s))),
       [SetTimeout T_clearRecordingSuccess 5000])
  | NotOk e =>
      (setError (Some (or_default e "Failed to stop recording")) s, [])
  | Ok None | Rejected =>
      (setError
         (Some "Error stopping recording. Make sure the camera server is running.")
         s,
       [])
  end.

(** *** handleModeChange *)

(** [handleModeChange] first awaits [checkStatus()]; the closure's
    [isStreaming] travels with the continuation. *)
Definition handleModeChange_begin (isStreaming0 : bool) (s : State)
  : State * list Effect :=
  (s, [Fetch (K_checkStatus (ModeChangeRest isStreaming0))]).

Definition handleModeChange_rest (isStreaming0 : bool) (now : Z) (s : State)
  : State * list Effect :=
  (s, if isStreaming0 && imgRef_current s
      then [SetSrc (StreamUrl now)] else []).

(** What runs when a [checkStatus()] promise settles. *)
Definition after_checkStatus (a : After) (now : Z) (s : State)
  : State * list Effect :=
  match a with
  | Nothing => (s, [])
  | RestartRest isStreaming0 => restartCamera_rest isStreaming0 s
  | ModeChangeRest isStreaming0 => handleModeChange_rest isStreaming0 now s
  end.

(** The interval of the second [useEffect]: one more second of recording. *)
Definition durationTick (s : State) : State :=
  if isRecording s then setRecordingDuration (recordingDuration s + 1) s
  else s.

(** The callback of each timer. *)
Definition fire (t : Timer) (now : Z) (s : State) : State * list Effect :=
  match t with
  | T_openStream => openStream_fire now s
  | T_checkStatus => checkStatus_begin s
  | T_reopenAfterRestart => reopenAfterRestart_fire now s
  | T_retryStream isStreaming0 => retryStream_fire isStreaming0 now s
  | T_clearCaptureSuccess => (setCaptureSuccess None s, [])
  | T_clearRecordingSuccess => (setRecordingSuccess None s, [])
  end.

(** *** The [disabled] attributes of the controls *)

(** [!cameraStatus?.status]: both status strings are truthy. *)
Definition no_status (s : State) : bool :=
  match cameraStatus s with Some _ => false | None => true end.

Inductive Button : Type :=
  | StartStream
  | StopStream
  | RestartCamera
  | RefreshStatus
  | TakePicture
  | StartRecording
  | StopRecording.

(** Whether the button is in the rendered tree. *)
Definition rendered (b : Button) (s : State) : bool :=
  match b with
  | StartStream => negb (isStreaming s)
  | StopStream => isStreaming s
  | StartRecording => negb (isRecording s)
  | StopRecording => isRecording s
  | RestartCamera | RefreshStatus | TakePicture => true
  end.

Definition disabled (b : Button) (s : State) : bool :=
  match b with
  | StartStream => isLoading s || negb (isServerConnected s)
  | StopStream => isLoading s
  | RestartCamera => isLoading s || negb (isServerConnected s)
  | RefreshStatus => isLoading s
  | TakePicture =>
      isCapturing s || negb (isServerConnected s) || no_status s
      || negb (isStreaming s)
  | StartRecording => negb (isServerConnected s) || no_status s
  | StopRecording => false
  end.

(** The [onClick] of each button. *)
Definition onClick (b : Button) (s : State) : State * list Effect :=
  match b with
  | StartStream => startStreaming_begin s
  | StopStream => stopStreaming_begin s
  | RestartCamera => restartCamera_begin s
  | RefreshStatus => checkStatus_begin s
  | TakePicture => capturePicture_begin s
  | StartRecording => startRecording_begin s
  | StopRecording => stopRecording_begin s
  end.

(** A click reaches [onClick] only on a rendered, enabled button. *)
Definition click (b : Button) (s : State) : State * list Effect :=
  if rendered b s && negb (disabled b s) then onClick b s else (s, []).

(** The [disabled] prop handed to [CameraModeSelector]. *)
Definition selector_disabled (s : State) : bool :=
  negb (isServerConnected s) || isLoading s.

End Stream.

(** ** Gallery.tsx *)

Module Gallery.

Record MediaFile : Type := mkMediaFile {
  filename : string;
  url : string;
  size : Z;
  created : Z
}.

Record GalleryData : Type := mkGalleryData {
  pictures : list MediaFile;
  recordings : list MediaFile
}.

(** The bodies of [GET /api/camera/pictures] and
    [GET /api/camera/recordings]; the list field may be absent. *)
Module PicturesBody.
Record t : Type := mk { pictures : option (list MediaFile) }.
End PicturesBody.

Module RecordingsBody.
Record t : Type := mk { recordings : option (list MediaFile) }.
End RecordingsBody.

Inductive Tab : Type := pictures_tab | recordings_tab.

Record State : Type := mkState {
  galleryData : GalleryData;
  isLoading : bool;
  error : option string;
  activeTab : Tab
}.

Definition init : State :=
  {| galleryData := {| pictures := []; recordings := [] |};
     isLoading := false; error := None; activeTab := pictures_tab |}.

Definition setGalleryData (v : GalleryData) (s : State) : State :=
  mkState v (isLoading s) (error s) (activeTab s).
Definition setIsLoading (v : bool) (s : State) : State :=
  mkState (galleryData s) v (error s) (activeTab s).
Definition setError (v : option string) (s : State) : State :=
  mkState (galleryData s) (isLoading s) v (activeTab s).

(** [xs || []]: an absent field is [undefined]; every array is truthy. *)
Definition or_empty (xs : option (list MediaFile)) : list MediaFile :=
  match xs with
  | Some l => l
  | None => []
  end.

(** [fetchGalleryData], up to [await Promise.all([fetch, fetch])]. *)
Definition fetchGalleryData_begin (s : State) : State * list Request :=
  (setError None (setIsLoading true s), [GET_pictures; GET_recordings]).

(** [fetchGalleryData], after both fetches settled. *)
Definition fetchGalleryData_resume (p : Reply PicturesBody.t)
    (r : Reply RecordingsBody.t) (s : State) : State :=
  setIsLoading false
    match p, r with
    | Rejected, _ | _, Rejected =>
        setError (Some "Error connecting to camera server") s
    | Ok (Some picturesData), Ok (Some recordingsData) =>
        setGalleryData
          {| pictures := or_empty (PicturesBody.pictures picturesData);
             recordings :=
               or_empty (RecordingsBody.recordings recordingsData) |}
          s
    | Ok _, Ok _ => setError (Some "Error connecting to camera server") s
    | _, _ => setError (Some "Failed to fetch gallery data") s
    end.

Definition totalFiles (s : State) : nat :=
  (length (pictures (galleryData s))
   + length (recordings (galleryData s)))%nat.

Definition totalSize (s : State) : Z :=
  foldl (fun sum file => sum + size file) 0
    (pictures (galleryData s) ++ recordings (galleryData s)).

End Gallery.

(** ** The event loop of the camera page *)

(** [CameraStream] with the [CameraModeSelector] it renders, the requests
    in flight, the pending timers, and two logs: every request handed to
    [fetch] and every value assigned to [imgRef.current.src], oldest
    first. *)

Module App.

Import Stream.

Inductive Pending : Type :=
  | P_stream (k : Cont)
  | P_fetchModes
  | P_changeMode (modes0 : list Selector.CameraMode) (modeId : string)
                 (isStreaming0 : bool).

Definition request_of_pending (p : Pending) : Request :=
  match p with
  | P_stream k => request_of k
  | P_fetchModes => GET_modes
  | P_changeMode _ modeId _ => POST_mode modeId
  end.

Record Sys : Type := mkSys {
  cam : State;
  sel : Selector.State;
  inflight : list Pending;
  timers : list Timer;
  transport : list Request;
  srcs : list ImgSrc
}.

Definition with_cam (v : State) (w : Sys) : Sys :=
  mkSys v (sel w) (inflight w) (timers w) (transport w) (srcs w).
Definition with_sel (v : Selector.State) (w : Sys) : Sys :=
  mkSys (cam w) v (inflight w) (timers w) (transport w) (srcs w).
Definition with_inflight (v : list Pending) (w : Sys) : Sys :=
  mkSys (cam w) (sel w) v (timers w) (transport w) (srcs w).
Definition with_timers (v : list Timer) (w : Sys) : Sys :=
  mkSys (cam w) (sel w) (inflight w) v (transport w) (srcs w).

(** [fetch]: the request goes out and the caller is suspended. *)
Definition send (p : Pending) (w : Sys) : Sys :=
  mkSys (cam w) (sel w) (inflight w ++ [p]) (timers w)
        (transport w ++ [request_of_pending p]) (srcs w).

Definition perform (w : Sys) (e : Effect) : Sys :=
  match e with
  | Fetch k => send (P_stream k) w
  | SetTimeout t _ =>
      mkSys (cam w) (sel w) (inflight w) (timers w ++ [t]) (transport w)
            (srcs w)
  | SetSrc u =>
      mkSys (cam w) (sel w) (inflight w) (timers w) (transport w)
            (srcs w ++ [u])
  end.

(** Run a piece of a [CameraStream] handler. *)
Definition run_cam (h : State -> State * list Effect) (w : Sys) : Sys :=
  let '(s', es) := h (cam w) in foldl perform (with_cam s' w) es.

(** The replies, by the shape of body each endpoint answers with. *)
Inductive AnyReply : Type :=
  | R_status (r : Reply CameraStatus)
  | R_plain (r : Reply unit)
  | R_captured (r : Reply Captured.t)
  | R_started (r : Reply Started.t)
  | R_stopped (r : Reply Stopped.t)
  | R_modes (r : Reply Selector.CameraModeData).

(** Resume the suspended handler [p] with reply [r]; [None] when [r] is
    not a reply of the endpoint [p] waits for. *)
Definition resume (p : Pending) (r : AnyReply) (now : Z) (w : Sys)
  : option Sys :=
  match p, r with
  | P_stream (K_checkStatus a), R_status r =>
      Some (run_cam (after_checkStatus a now)
              (with_cam (checkStatus_resume r (cam w)) w))
  | P_stream K_startStreaming, R_plain r =>
      Some (run_cam (startStreaming_resume r) w)
  | P_stream K_stopStreaming, R_plain r =>
      Some (run_cam (stopStreaming_resume r) w)
  | P_stream (K_restartCamera isStreaming0), R_plain r =>
      Some (run_cam (restartCamera_resume isStreaming0 r) w)
  | P_stream K_capturePicture, R_captured r =>
      Some (run_cam (capturePicture_resume r) w)
  | P_stream K_startRecording, R_started r =>
      Some (run_cam (startRecording_resume r) w)
  | P_stream K_stopRecording, R_stopped r =>
      Some (run_cam (stopRecording_resume r) w)
  | P_fetchModes, R_modes r =>
      Some (with_sel (Selector.fetchModes_resume r (sel w)) w)
  | P_changeMode modes0 modeId isStreaming0, R_plain r =>
      let '(sel', call) :=
        Selector.changeMode_resume modes0 true modeId r (sel w) in
      let w' := with_sel sel' w in
      Some match call with
           | Some _ => run_cam (handleModeChange_begin isStreaming0) w'
           | None => w'
           end
  | _, _ => None
  end.

Inductive Event : Type :=
  | Click (b : Button)
  | SelectMode (modeId : string)
  | RefreshModes
  | Poll
  | DurationTick
  | ImgError
  | ImgLoad
  | Response (n : nat) (now : Z) (r : AnyReply)
  | Fire (n : nat) (now : Z).

Definition step (w : Sys) (e : Event) : Sys :=
  match e with
  | Click b => run_cam (click b) w
  | SelectMode modeId =>
      if Selector.select_disabled (selector_disabled (cam w)) (sel w) then w
      else
        match Selector.changeMode_begin modeId (sel w) with
        | Some (sel', _) =>
            send (P_changeMode (Selector.modes (sel w)) modeId
                    (isStreaming (cam w)))
                 (with_sel sel' w)
        | None => w
        end
  | RefreshModes =>
      if Selector.refresh_disabled (selector_disabled (cam w)) (sel w) then w
      else send P_fetchModes (with_sel (Selector.fetchModes_begin (sel w)) w)
  | Poll => run_cam checkStatus_begin w
  | DurationTick => with_cam (durationTick (cam w)) w
  | ImgError =>
      if imgRef_current (cam w) then run_cam handleImageError w else w
  | ImgLoad =>
      if imgRef_current (cam w) then with_cam (handleImageLoad (cam w)) w
      else w
  | Response n now r =>
      match inflight w !! n with
      | Some p =>
          match resume p r now (with_inflight (delete n (inflight w)) w) with
          | Some w' => w'
          | None => w
          end
      | None => w
      end
  | Fire n now =>
      match timers w !! n with
      | Some t => run_cam (fire t now) (with_timers (delete n (timers w)) w)
      | None => w
      end
  end.

Definition run (w : Sys) (es : list Event) : Sys := foldl step w es.

(** The page right after mounting: the effect of [CameraModeSelector] has
    called [fetchModes], the effect of [CameraStream] has called
    [checkStatus]. *)
Definition mounted : Sys :=
  {| cam := init;
     sel := Selector.fetchModes_begin Selector.init;
     inflight := [P_fetchModes; P_stream (K_checkStatus Nothing)];
     timers := [];
     transport := [GET_modes; GET_status];
     srcs := [] |}.

Definition reachable (w : Sys) : Prop := exists es, w = run mounted es.

(** Number of assignments of a stream URL to the image source. *)
Definition is_open (u : ImgSrc) : bool :=
  match u with
  | StreamUrl _ => true
  | EmptySrc => false
  end.

Definition opens (w : Sys) : nat := length (List.filter is_open (srcs w)).

End App.

(** ** Vocabulary of the properties *)

Module Props.

Import Stream App.

(** *** Status polling *)

(** A status fetch that did not deliver a status: the promise rejected, the
    response was not OK, or its body did not parse. *)
Definition status_fetch_failed (r : Reply CameraStatus) : bool :=
  match r with
  | Ok (Some _) => false
  | _ => true
  end.

(** The status replies [l] applied in their order of arrival. *)
Definition apply_statuses (l : list CameraStatus) (s : State) : State :=
  foldl (fun s status => checkStatus_resume (Ok (Some status)) s) s l.

(** A monotone [replace]: a status whose time stamp, read off by [stamp],
    is not newer than the visible one is discarded. *)
Definition replace_monotone (stamp : CameraStatus -> Z) : Prop :=
  forall (s : State) (cur next : CameraStatus),
    cameraStatus s = Some cur ->
    stamp next <= stamp cur ->
    cameraStatus (checkStatus_resume (Ok (Some next)) s) = Some cur.

(** The one time stamp a status body carries. *)
Definition last_access_stamp (c : CameraStatus) : Z :=
  match last_access c with
  | Some t => t
  | None => 0
  end.

Definition not_recording : RecordingStatus.t :=
  RecordingStatus.mk false None 0 None.

(** Camera active, not streaming, seen at 100; and a stale status, seen
    at 90. *)
Definition status_at_100 : CameraStatus :=
  mkCameraStatus active false (Some 100) None (Some not_recording).

Definition status_at_90 : CameraStatus :=
  mkCameraStatus inactive false (Some 90) None (Some not_recording).

(** The status the camera reports once it streams. *)
Definition status_streaming : CameraStatus :=
  mkCameraStatus active true (Some 3000) None (Some not_recording).

(** *** Pages reached from [mounted] *)

(** The first poll has answered: connected, status known, not streaming. *)
Definition connected_page : Sys :=
  Eval vm_compute in
  run mounted [Response 1 0 (R_status (Ok (Some status_at_100)))].

(** Start Stream was clicked and answered, the image source was set at
    1000, the follow-up status check of [startStreaming] has answered. *)
Definition streaming_page : Sys :=
  Eval vm_compute in
  run connected_page
    [Click StartStream; Response 1 0 (R_plain (Ok None)); Fire 0 1000;
     Fire 0 3000; Response 1 3100 (R_status (Ok (Some status_streaming)))].

(** The selector has received its list of modes; the camera runs the
    HD mode. *)
Definition hd_mode : Selector.CameraMode :=
  Selector.mkCameraMode "hd" "HD" 1920 1080 30 "Full HD at 30 fps".

Definition modes_page : Sys :=
  Eval vm_compute in
  run mounted
    [Response 0 0
       (R_modes
          (Ok (Some (Selector.mkCameraModeData [hd_mode]
                       (Selector.Current.mk 1920 1080 30 "HD")))))].

(** Start Stream was clicked on the connected page; its request is in
    flight. *)
Definition starting_page : Sys :=
  Eval vm_compute in run connected_page [Click StartStream].

(** Start Recording was clicked on the connected page; its request is in
    flight. *)
Definition record_pending_page : Sys :=
  Eval vm_compute in run connected_page [Click StartRecording].

(** Restart Camera was clicked on the streaming page; its request is in
    flight. *)
Definition restart_pending_page : Sys :=
  Eval vm_compute in run streaming_page [Click RestartCamera].

(** [n] feed errors in a row, each followed by its 2000 ms timer. *)
Fixpoint feed_errors (n : nat) (t : Z) : list Event :=
  match n with
  | O => []
  | S n' => ImgError :: Fire 0 (t + 2000) :: feed_errors n' (t + 2000)
  end.

(** *** Commands *)

(** The streaming field of the visible status. *)
Definition snapshot_streaming (s : State) : bool :=
  match cameraStatus s with
  | Some c => streaming c
  | None => false
  end.

(** Button [b] makes no request while nothing says streaming. *)
Definition streaming_gate (b : Button) : Prop :=
  forall w : Sys,
    isStreaming (cam w) = false -> snapshot_streaming (cam w) = false ->
    transport (step w (Click b)) = transport w.

Definition streaming_gate_claim : Prop :=
  streaming_gate TakePicture /\ streaming_gate StartRecording.

(** The suspended handlers that carry a command (not a status refresh, not
    the listing of modes). *)
Definition is_command (p : Pending) : bool :=
  match p with
  | P_stream (K_checkStatus _) | P_fetchModes => false
  | _ => true
  end.

Definition command_in_flight (w : Sys) : Prop :=
  exists p, p ∈ inflight w /\ is_command p = true.

(** The events that ask for a command. *)
Definition command_event (e : Event) : bool :=
  match e with
  | Click RefreshStatus => false
  | Click _ | SelectMode _ => true
  | _ => false
  end.

(** A command asked for while another is in flight makes no request. *)
Definition busy_gate_claim : Prop :=
  forall (w : Sys) (e : Event),
    reachable w -> command_in_flight w -> command_event e = true ->
    transport (step w e) = transport w.

(** The handlers that hold [isLoading]: start, stop, and restart up to the
    end of its status refresh. *)
Definition holds_loading (p : Pending) : bool :=
  match p with
  | P_stream K_startStreaming | P_stream K_stopStreaming
  | P_stream (K_restartCamera _)
  | P_stream (K_checkStatus (RestartRest _)) => true
  | _ => false
  end.

Definition loading_in_flight (w : Sys) : nat :=
  length (List.filter holds_loading (inflight w)).

(** The controls that [isLoading] disables. *)
Definition loading_gated (e : Event) : bool :=
  match e with
  | Click StartStream | Click StopStream | Click RestartCamera
  | Click RefreshStatus | SelectMode _ | RefreshModes => true
  | _ => false
  end.

(** Reply [r] has the shape handler [p] waits for. *)
Definition answers (r : AnyReply) (p : Pending) : bool :=
  match p, r with
  | P_stream (K_checkStatus _), R_status _
  | P_stream K_startStreaming, R_plain _
  | P_stream K_stopStreaming, R_plain _
  | P_stream (K_restartCamera _), R_plain _
  | P_stream K_capturePicture, R_captured _
  | P_stream K_startRecording, R_started _
  | P_stream K_stopRecording, R_stopped _
  | P_fetchModes, R_modes _
  | P_changeMode _ _ _, R_plain _ => true
  | _, _ => false
  end.

Definition failed (r : AnyReply) : bool :=
  match r with
  | R_status r => transport_failed r
  | R_plain r => transport_failed r
  | R_captured r => transport_failed r
  | R_started r => transport_failed r
  | R_stopped r => transport_failed r
  | R_modes r => transport_failed r
  end.

(** The busy flag of the command [p], where it has one. *)
Definition busy (p : Pending) (w : Sys) : bool :=
  match p with
  | P_stream K_startStreaming | P_stream K_stopStreaming
  | P_stream (K_restartCamera _) => isLoading (cam w)
  | P_stream K_capturePicture => isCapturing (cam w)
  | P_changeMode _ _ _ => Selector.isChanging (sel w)
  | _ => false
  end.

(** The error cell of the component that issued [p]. *)
Definition surfaced (p : Pending) (w : Sys) : option string :=
  match p with
  | P_stream _ => error (cam w)
  | P_fetchModes | P_changeMode _ _ _ => Selector.error (sel w)
  end.


(** The page with a restart answered OK and its status refresh in flight,
    reached from [streaming_page]. *)
Definition restarting_page : Sys :=
  Eval vm_compute in
  run streaming_page
    [Click RestartCamera; Response 1 4000 (R_plain (Ok None))].

End Props.

(** ** What the components render *)

Module View.

Import Stream.

(** [getStatusBadge] and [getStreamingBadge]: the badge each returns. *)
Inductive StatusBadge : Type := Disconnected | Active | Inactive.

Definition getStatusBadge (s : State) : StatusBadge :=
  if negb (isServerConnected s) then Disconnected
  else
    match cameraStatus s with
    | Some c =>
        match status c with
        | active => Active
        | inactive => Inactive
        end
    | None => Inactive
    end.

Inductive StreamingBadge : Type := Streaming | Stopped.

Definition getStreamingBadge (s : State) : StreamingBadge :=
  if isStreaming s then Streaming else Stopped.

(** [cameraStatus && isServerConnected]: the grid of status information is
    rendered. *)
Definition statusPanel_shown (s : State) : bool :=
  match cameraStatus s with
  | Some _ => isServerConnected s
  | None => false
  end.

(** [!isStreaming && isServerConnected && cameraStatus?.status === 'active']:
    the tip that asks to start streaming first is rendered. *)
Definition tip_shown (s : State) : bool :=
  negb (isStreaming s) && isServerConnected s
  && match cameraStatus s with
     | Some c =>
         match status c with
         | active => true
         | inactive => false
         end
     | None => false
     end.

(** [getResolutionBadge] and [getFramerateBadge] of the mode selector:
    the badges read 4K+, HD, SD and High FPS, Standard, Low FPS. *)
Inductive ResolutionBadge : Type := UHD | HD | SD.

Definition getResolutionBadge (mode : Selector.CameraMode)
  : ResolutionBadge :=
  if Z.leb 3840 (Selector.width mode) then UHD
  else if Z.leb 1920 (Selector.width mode) then HD
  else SD.

Inductive FramerateBadge : Type := HighFPS | Standard | LowFPS.

Definition getFramerateBadge (framerate : Z) : FramerateBadge :=
  if Z.leb 60 framerate then HighFPS
  else if Z.leb 30 framerate then Standard
  else LowFPS.

(** The badges ordered by what they stand for. *)
Definition resolution_rank (b : ResolutionBadge) : Z :=
  match b with
  | SD => 0
  | HD => 1
  | UHD => 2
  end.

Definition framerate_rank (b : FramerateBadge) : Z :=
  match b with
  | LowFPS => 0
  | Standard => 1
  | HighFPS => 2
  end.

End View.

(** ** CameraStream.tsx *)

(** The component as the file [CameraStream.tsx] has it: streaming
    controls only, no capture and no recording.  Requests, timers and
    assignments to the image source are those of [Stream]. *)

Module Legacy.

Record CameraStatus : Type := mkCameraStatus {
  status : Stream.Power;
  streaming : bool;
  last_access : option Z;
  current_mode : option Stream.CameraMode
}.

Record State : Type := mkState {
  isStreaming : bool;
  cameraStatus : option CameraStatus;
  isLoading : bool;
  error : option string;
  isServerConnected : bool
}.

Definition init : State :=
  {| isStreaming := false; cameraStatus := None; isLoading := false;
     error := None; isServerConnected := false |}.

Definition setIsStreaming (v : bool) (s : State) : State :=
  mkState v (cameraStatus s) (isLoading s) (error s) (isServerConnected s).
Definition setCameraStatus (v : option CameraStatus) (s : State) : State :=
  mkState (isStreaming s) v (isLoading s) (error s) (isServerConnected s).
Definition setIsLoading (v : bool) (s : State) : State :=
  mkState (isStreaming s) (cameraStatus s) v (error s) (isServerConnected s).
Definition setError (v : option string) (s : State) : State :=
  mkState (isStreaming s) (cameraStatus s) (isLoading s) v
    (isServerConnected s).
Definition setIsServerConnected (v : bool) (s : State) : State :=
  mkState (isStreaming s) (cameraStatus s) (isLoading s) (error s) v.

Definition imgRef_current (s : State) : bool := isStreaming s.

Definition checkStatus_begin (s : State) : State * list Stream.Effect :=
  (s, [Stream.Fetch (Stream.K_checkStatus Stream.Nothing)]).

Definition checkStatus_resume (r : Reply CameraStatus) (s : State) : State :=
  match r with
  | Ok (Some status) =>
      setError None
        (setIsServerConnected true (setCameraStatus (Some status) s))
  | NotOk _ =>
      setError (Some "Camera server not responding")
        (setIsServerConnected false s)
  | Ok None | Rejected =>
      setError
        (Some "Cannot connect to camera server. Make sure it's running on port 5000.")
        (setIsServerConnected false s)
  end.

Definition startStreaming_begin (s : State) : State * list Stream.Effect :=
  (setError None (setIsLoading true s), [Stream.Fetch Stream.K_startStreaming]).

Definition startStreaming_resume (r : Reply unit) (s : State)
  : State * list Stream.Effect :=
  match r with
  | Ok _ =>
      (setIsLoading false (setIsStreaming true s),
       [Stream.SetTimeout Stream.T_openStream 1000])
  | NotOk e =>
      (setIsLoading false
         (setError (Some (or_default e "Failed to start camera streaming")) s),
       [])
  | Rejected =>
      (setIsLoading false
         (setError
            (Some "Error starting camera stream. Make sure the camera server is running.")
            s),
       [])
  end.

Definition openStream_fire (now : Z) (s : State)
  : State * list Stream.Effect :=
  (s, (if imgRef_current s
       then [Stream.SetSrc (Stream.StreamUrl now)] else [])
      ++ [Stream.SetTimeout Stream.T_checkStatus 2000]).

Definition stopStreaming_begin (s : State) : State * list Stream.Effect :=
  (setError None (setIsLoading true s), [Stream.Fetch Stream.K_stopStreaming]).

Definition stopStreaming_resume (r : Reply unit) (s : State)
  : State * list Stream.Effect :=
  match r with
  | Ok _ =>
      (setIsLoading false (setIsStreaming false s),
       if imgRef_current s then [Stream.SetSrc Stream.EmptySrc] else [])
  | NotOk _ =>
      (setIsLoading false
         (setError (Some "Failed to stop camera streaming") s), [])
  | Rejected =>
      (setIsLoading false
         (setError (Some "Error stopping camera stream") s), [])
  end.

Definition restartCamera_begin (s : State) : State * list Stream.Effect :=
  (setError None (setIsLoading true s),
   [Stream.Fetch (Stream.K_restartCamera (isStreaming s))]).

Definition restartCamera_resume (isStreaming0 : bool) (r : Reply unit)
    (s : State) : State * list Stream.Effect :=
  match r with
  | Ok _ =>
      (s, [Stream.Fetch
             (Stream.K_checkStatus (Stream.RestartRest isStreaming0))])
  | NotOk _ =>
      (setIsLoading false (setError (Some "Failed to restart camera") s), [])
  | Rejected =>
      (setIsLoading false (setError (Some "Error restarting camera") s), [])
  end.

Definition restartCamera_rest (isStreaming0 : bool) (s : State)
  : State * list Stream.Effect :=
  (setIsLoading false s,
   if isStreaming0
   then [Stream.SetTimeout Stream.T_reopenAfterRestart 1000] else []).

Definition reopenAfterRestart_fire (now : Z) (s : State)
  : State * list Stream.Effect :=
  (s, if imgRef_current s
      then [Stream.SetSrc (Stream.StreamUrl now)] else []).

Definition handleImageError (s : State) : State * list Stream.Effect :=
  if imgRef_current s && isStreaming s then
    (s, [Stream.SetTimeout (Stream.T_retryStream (isStreaming s)) 2000])
  else
    (setIsStreaming false
       (setError
          (Some "Failed to load camera stream. Try restarting the camera.") s),
     []).

Definition retryStream_fire (isStreaming0 : bool) (now : Z) (s : State)
  : State * list Stream.Effect :=
  (s, if imgRef_current s && isStreaming0
      then [Stream.SetSrc (Stream.StreamUrl now)] else []).

Definition handleImageLoad (s : State) : State := setError None s.

Definition handleModeChange_begin (isStreaming0 : bool) (s : State)
  : State * list Stream.Effect :=
  (s, [Stream.Fetch
         (Stream.K_checkStatus (Stream.ModeChangeRest isStreaming0))]).

Definition handleModeChange_rest (isStreaming0 : bool) (now : Z) (s : State)
  : State * list Stream.Effect :=
  (s, if isStreaming0 && imgRef_current s
      then [Stream.SetSrc (Stream.StreamUrl now)] else []).

(** The four buttons of this version. *)
Inductive Button : Type :=
  | StartStream
  | StopStream
  | RestartCamera
  | RefreshStatus.

Definition rendered (b : Button) (s : State) : bool :=
  match b with
  | StartStream => negb (isStreaming s)
  | StopStream => isStreaming s
  | RestartCamera | RefreshStatus => true
  end.

Definition disabled (b : Button) (s : State) : bool :=
  match b with
  | StartStream => isLoading s || negb (isServerConnected s)
  | StopStream => isLoading s
  | RestartCamera => isLoading s || negb (isServerConnected s)
  | RefreshStatus => isLoading s
  end.

Definition onClick (b : Button) (s : State) : State * list Stream.Effect :=
  match b with
  | StartStream => startStreaming_begin s
  | StopStream => stopStreaming_begin s
  | RestartCamera => restartCamera_begin s
  | RefreshStatus => checkStatus_begin s
  end.

Definition click (b : Button) (s : State) : State * list Stream.Effect :=
  if rendered b s && negb (disabled b s) then onClick b s else (s, []).

Definition selector_disabled (s : State) : bool :=
  negb (isServerConnected s) || isLoading s.

End Legacy.

(** ** Vocabulary of the further properties *)

Module Props2.

Import Stream App.

(** *** The two versions of CameraStream *)

(** The status body as the older interface reads it. *)
Definition forget (c : CameraStatus) : Legacy.CameraStatus :=
  Legacy.mkCameraStatus (status c) (streaming c) (last_access c)
    (current_mode c).

Definition forget_reply (r : Reply CameraStatus) : Reply Legacy.CameraStatus :=
  match r with
  | Rejected => Rejected
  | NotOk e => NotOk e
  | Ok b => Ok (forget <$> b)
  end.

(** The state cells the two versions share. *)
Definition shared (s : State) : Legacy.State :=
  Legacy.mkState (isStreaming s) (forget <$> cameraStatus s) (isLoading s)
    (error s) (isServerConnected s).

Definition shared_out (x : State * list Effect)
  : Legacy.State * list Effect :=
  (shared (fst x), snd x).

Definition newer (b : Legacy.Button) : Button :=
  match b with
  | Legacy.StartStream => StartStream
  | Legacy.StopStream => StopStream
  | Legacy.RestartCamera => RestartCamera
  | Legacy.RefreshStatus => RefreshStatus
  end.

(** *** Recovery of the status poll *)

(** A failed status fetch followed by a successful one. *)
Definition recovery (r : Reply CameraStatus) (fresh : CameraStatus)
    (s : State) : State :=
  checkStatus_resume (Ok (Some fresh)) (checkStatus_resume r s).

(** The recording flag and duration after a recovery come from the fresh
    response alone. *)
Definition recording_from_fresh : Prop :=
  forall (r : Reply CameraStatus) (fresh : CameraStatus) (s1 s2 : State),
    Props.status_fetch_failed r = true ->
    isRecording (recovery r fresh s1) = isRecording (recovery r fresh s2)
    /\ recordingDuration (recovery r fresh s1)
       = recordingDuration (recovery r fresh s2).

(** A status body without a recording object. *)
Definition status_without_recording : CameraStatus :=
  mkCameraStatus active true (Some 200) None None.

(** The component seven seconds into a recording, streaming, with a known
    status. *)
Definition recording_state : State :=
  setRecordingDuration 7
    (setIsRecording true
       (setIsStreaming true
          (setIsServerConnected true
             (setCameraStatus (Some Props.status_streaming) init)))).

(** *** Failed commands *)

(** [{error && <Alert ...>}]: the alert is rendered for a message that is
    not empty. *)
Definition alert_shown (e : option string) : bool :=
  match e with
  | Some m => negb (String.eqb m "")
  | None => false
  end.

(** The command [p] failed: its fetch rejected, its response was not OK,
    or the handler parses the body of an OK response and that body does
    not parse (start, stop and restart do not read it). *)
Definition command_failed (p : Pending) (r : AnyReply) : bool :=
  Props.failed r
  || match p, r with
     | P_stream K_capturePicture, R_captured (Ok None)
     | P_stream K_startRecording, R_started (Ok None)
     | P_stream K_stopRecording, R_stopped (Ok None)
     | P_changeMode _ _ _, R_plain (Ok None) => true
     | _, _ => false
     end.

(** The [error] field of the body of a response that is not OK. *)
Definition server_error (r : AnyReply) : option string :=
  match r with
  | R_status (NotOk e) | R_plain (NotOk e) | R_captured (NotOk e)
  | R_started (NotOk e) | R_stopped (NotOk e) | R_modes (NotOk e) => e
  | _ => None
  end.

(** The handlers that read [errorData.error]; [stopStreaming] and
    [restartCamera] show their own text. *)
Definition shows_server_error (p : Pending) : bool :=
  match p with
  | P_stream K_startStreaming | P_stream K_capturePicture
  | P_stream K_startRecording | P_stream K_stopRecording
  | P_changeMode _ _ _ => true
  | _ => false
  end.

(** *** Requests in flight, by kind *)

Definition is_capture (p : Pending) : bool :=
  match p with
  | P_stream K_capturePicture => true
  | _ => false
  end.

Definition is_fetchModes (p : Pending) : bool :=
  match p with
  | P_fetchModes => true
  | _ => false
  end.

Definition is_changeMode (p : Pending) : bool :=
  match p with
  | P_changeMode _ _ _ => true
  | _ => false
  end.

Definition in_flight (f : Pending -> bool) (w : Sys) : nat :=
  length (List.filter f (inflight w)).

(** What holds of the selector's requests in every reachable state. *)
Definition selector_inv (w : Sys) : Prop :=
  in_flight is_fetchModes w
  = (if Selector.isLoading (sel w) then 1 else 0)%nat
  /\ in_flight is_changeMode w
     = (if Selector.isChanging (sel w) then 1 else 0)%nat
  /\ Selector.isLoading (sel w) && Selector.isChanging (sel w) = false.

(** *** Gallery *)

Definition sum_sizes (l : list Gallery.MediaFile) : Z :=
  foldr (fun file acc => Gallery.size file + acc) 0 l.

(** A gallery fetch delivered both lists. *)
Definition gallery_delivered (p : Reply Gallery.PicturesBody.t)
    (r : Reply Gallery.RecordingsBody.t) : bool :=
  match p, r with
  | Ok (Some _), Ok (Some _) => true
  | _, _ => false
  end.

Definition sample_picture : Gallery.MediaFile :=
  Gallery.mkMediaFile "shot.jpg" "/pictures/shot.jpg" 2048 1700000000.

Definition sample_recording : Gallery.MediaFile :=
  Gallery.mkMediaFile "clip.mp4" "/recordings/clip.mp4" 1048576 1700000100.

(** Sizes for which the sums of the header are exact in double
    arithmetic: none is negative and together they stay within [2^53]. *)
Definition exact_sizes (l : list Gallery.MediaFile) : Prop :=
  Forall (fun file => 0 <= Gallery.size file) l /\ sum_sizes l <= 2 ^ 53.

Definition sample_gallery : Gallery.State :=
  Gallery.mkState (Gallery.mkGalleryData [sample_picture] [sample_recording])
    false None Gallery.pictures_tab.

Definition gallery_rejected {A} (r : Reply A) : bool :=
  match r with
  | Rejected => true
  | _ => false
  end.

Definition gallery_not_ok {A} (r : Reply A) : bool :=
  match r with
  | NotOk _ => true
  | _ => false
  end.

(** *** Sample data *)

Definition vga_mode : Selector.CameraMode :=
  Selector.mkCameraMode "vga" "VGA" 640 480 30 "640 by 480 at 30 fps".

Definition two_modes : Selector.CameraModeData :=
  Selector.mkCameraModeData [vga_mode; Props.hd_mode]
    (Selector.Current.mk 1920 1080 30 "HD").

Definition stale_selector : Selector.State :=
  Selector.mkState [Props.hd_mode] (Some Props.hd_mode) "hd" true false None.

Definition only_vga : Selector.CameraModeData :=
  Selector.mkCameraModeData [vga_mode]
    (Selector.Current.mk 1280 720 60 "HD ready").

(** The page with a change to the HD mode in flight, asked for while the
    selector listed both modes and showed VGA. *)
Definition changing_page : Sys :=
  Eval vm_compute in
  run mounted
    [Response 1 0 (R_status (Ok (Some Props.status_at_100)));
     Response 0 0
       (R_modes
          (Ok (Some (Selector.mkCameraModeData [vga_mode; Props.hd_mode]
                       (Selector.Current.mk 640 480 30 "VGA")))));
     SelectMode "hd"].


(** A recording was started on the connected page, which does not
    stream. *)
Definition recording_page : Sys :=
  Eval vm_compute in
  run Props.connected_page
    [Click StartRecording;
     Response 1 0 (R_started (Ok (Some (Started.mk "clip.mp4"))))].

(** A picture is being taken on the streaming page. *)
Definition capturing_page : Sys :=
  Eval vm_compute in run Props.streaming_page [Click TakePicture].

(** The streaming page with a feed retry pending when Stop Stream is
    answered. *)
Definition stopped_page : Sys :=
  Eval vm_compute in
  run Props.streaming_page
    [ImgError; Click StopStream; Response 1 4000 (R_plain (Ok None))].

End Props2.

(** ** Gallery: the fetched lists *)

Module GalleryFacts.

Import Gallery.

(** C9. When both gallery responses are OK and their bodies parse, the
    gallery state receives two lists: the [pictures] and [recordings]
    arrays of the bodies, with the empty list in place of an absent field.
    The file count is the sum of their lengths, the busy flag is cleared
    and the error cell is left alone.  With both fields absent the gallery
    holds two empty lists, no file and size zero.  When a body does not
    parse, the previous lists stay. *)
Theorem C9_gallery_lists_defined
    (bp : option PicturesBody.t) (br : option RecordingsBody.t) (s : State) :
  let s' := fetchGalleryData_resume (Ok bp) (Ok br) s in
  let s0 := fetchGalleryData_resume (Ok (Some (PicturesBody.mk None)))
              (Ok (Some (RecordingsBody.mk None))) s in
  isLoading s' = false
  /\ match bp, br with
     | Some p, Some r =>
         pictures (galleryData s')
         = match PicturesBody.pictures p with Some l => l | None => [] end
         /\ recordings (galleryData s')
            = match RecordingsBody.recordings r with
              | Some l => l
              | None => []
              end
         /\ totalFiles s'
            = (length (pictures (galleryData s'))
               + length (recordings (galleryData s')))%nat
         /\ error s' = error s
     | _, _ => galleryData s' = galleryData s
     end
  /\ galleryData s0 = mkGalleryData [] []
  /\ totalFiles s0 = 0%nat
  /\ totalSize s0 = 0.
Proof.
  destruct bp as [[p]|], br as [[r]|]; cbn; repeat split.
Qed.

End GalleryFacts.

(** ** Mode selector *)

Module SelectorFacts.

Import Selector.
Import Props (hd_mode).

Lemma find_absent (modes0 : list CameraMode) (modeId : string) :
  Forall (fun m => id m <> modeId) modes0 ->
  List.find (fun mode => String.eqb (id mode) modeId) modes0 = None.
Proof.
  induction 1 as [|m l Hm _ IH]; cbn; [reflexivity|].
  destruct (String.eqb_spec (id m) modeId); [contradiction|exact IH].
Qed.

(** C10. When the mode-change response is OK but the requested id is not
    among the modes the selector had fetched, the current mode and the
    selected id stay as they were and [onModeChange] is not called; the
    busy flag is cleared. *)
Theorem C10_unknown_mode_changes_nothing
    (modes0 : list CameraMode) (notify : bool) (modeId : string)
    (body : option unit) (s : State) :
  Forall (fun m => id m <> modeId) modes0 ->
  let '(s', call) := changeMode_resume modes0 notify modeId (Ok body) s in
  currentMode s' = currentMode s
  /\ selectedModeId s' = selectedModeId s
  /\ modes s' = modes s
  /\ call = None
  /\ isChanging s' = false.
Proof.
  intros Habs. unfold changeMode_resume.
  rewrite (find_absent _ _ Habs). destruct body; cbn; repeat split.
Qed.

Lemma C10_witness :
  let '(s', call) :=
    changeMode_resume [hd_mode] true "4k" (Ok (Some tt)) init in
  currentMode s' = currentMode init
  /\ selectedModeId s' = selectedModeId init
  /\ modes s' = modes init
  /\ call = None
  /\ isChanging s' = false.
Proof.
  apply (C10_unknown_mode_changes_nothing [hd_mode] true "4k" (Some tt) init).
  repeat constructor. cbn. discriminate.
Defined.

(** The other half: a known id updates the selector and is passed on. *)
Lemma known_mode_is_selected
    (modes0 : list CameraMode) (notify : bool) (modeId : string)
    (newMode : CameraMode) (s : State) :
  List.find (fun mode => String.eqb (id mode) modeId) modes0 = Some newMode ->
  changeMode_resume modes0 notify modeId (Ok (Some tt)) s
  = (setIsChanging false
       (setSelectedModeId modeId (setCurrentMode (Some newMode) s)),
     if notify then Some newMode else None).
Proof. unfold changeMode_resume. intros ->. reflexivity. Qed.

End SelectorFacts.

(** ** Status polling *)

Module StatusFacts.

Import Stream Props.

Lemma checkStatus_ok_visible (fresh : CameraStatus) (s : State) :
  let s' := checkStatus_resume (Ok (Some fresh)) s in
  cameraStatus s' = Some fresh
  /\ isServerConnected s' = true
  /\ error s' = None
  /\ isStreaming s' = isStreaming s
  /\ isLoading s' = isLoading s.
Proof. cbn. destruct (recording fresh); cbn; repeat split. Qed.

(** C4, as stated, fails: the visible status seen at 100 is overwritten by a
    reply stamped 90. *)
Lemma C4_stale_status_overwrites : ~ replace_monotone last_access_stamp.
Proof.
  intros H.
  specialize (H (setCameraStatus (Some status_at_100) init)
                status_at_100 status_at_90 eq_refl).
  cbn in H. discriminate H. lia.
Qed.

(** No reading of a time stamp off the status makes the replacement
    monotone. *)
Lemma replace_never_monotone (stamp : CameraStatus -> Z) :
  ~ replace_monotone stamp.
Proof.
  intros H.
  destruct (Z.le_ge_cases (stamp status_at_90) (stamp status_at_100)) as [Hle|Hle].
  - specialize (H (setCameraStatus (Some status_at_100) init)
                  status_at_100 status_at_90 eq_refl Hle).
    discriminate H.
  - specialize (H (setCameraStatus (Some status_at_90) init)
                  status_at_90 status_at_100 eq_refl Hle).
    discriminate H.
Qed.

(** C4, amended. Every successful status reply replaces the visible status,
    whatever the two carry: after any sequence of successful replies the
    visible status is the one that arrived last, and the server counts as
    connected. *)
Theorem C4_last_reply_wins
    (l : list CameraStatus) (fresh : CameraStatus) (s : State) :
  let s' := apply_statuses (l ++ [fresh]) s in
  cameraStatus s' = Some fresh /\ isServerConnected s' = true.
Proof.
  cbn. unfold apply_statuses. rewrite foldl_snoc.
  split; apply checkStatus_ok_visible.
Qed.

(** C5, as stated, fails: after a failed fetch and a successful one whose
    body has no recording object, the page seven seconds into a recording
    still shows recording at seven seconds, the idle page shows none,
    although both received the same fresh response. *)
Lemma C5_stale_recording_survives : ~ Props2.recording_from_fresh.
Proof.
  intros H.
  destruct (H Rejected Props2.status_without_recording init
              Props2.recording_state eq_refl) as [Hrec _].
  vm_compute in Hrec. discriminate Hrec.
Qed.

(** C5, amended. A status fetch that fails marks the server as disconnected
    and leaves the last known status (mode, streaming, recording) and the
    recording flag and duration as they were; the next fetch that succeeds
    marks the server as connected again and makes the fresh status, with
    its mode and recording fields, the visible one.  The recording flag and
    duration of the page are taken from the fresh status when it carries a
    recording object and stay as they were when it carries none. *)
Theorem C5_disconnect_then_recover
    (r : Reply CameraStatus) (fresh : CameraStatus) (s : State) :
  status_fetch_failed r = true ->
  let s1 := checkStatus_resume r s in
  let s2 := checkStatus_resume (Ok (Some fresh)) s1 in
  (isServerConnected s1 = false
   /\ cameraStatus s1 = cameraStatus s
   /\ isRecording s1 = isRecording s
   /\ recordingDuration s1 = recordingDuration s
   /\ isStreaming s1 = isStreaming s)
  /\ (isServerConnected s2 = true
      /\ cameraStatus s2 = Some fresh
      /\ (current_mode <$> cameraStatus s2) = Some (current_mode fresh)
      /\ (recording <$> cameraStatus s2) = Some (recording fresh)
      /\ match recording fresh with
         | Some rs =>
             isRecording s2 = RecordingStatus.recording rs
             /\ recordingDuration s2 = RecordingStatus.duration rs
         | None =>
             isRecording s2 = isRecording s
             /\ recordingDuration s2 = recordingDuration s
         end).
Proof.
  intros Hr.
  assert (Hz : forall n, or_zero n = n).
  { intros n. unfold or_zero. destruct (Z.eqb_spec n 0); congruence. }
  destruct r as [|e|[c|]]; try discriminate Hr; clear Hr;
    (split; [cbn; repeat split|]);
    cbn; destruct (recording fresh) as [rs|] eqn:Hrec; cbn; rewrite ?Hz;
    repeat split; congruence.
Qed.

Lemma C5_witness :
  let s := Props2.recording_state in
  let s1 := checkStatus_resume (NotOk None) s in
  let s2 := checkStatus_resume (Ok (Some status_at_100)) s1 in
  (isServerConnected s1 = false
   /\ cameraStatus s1 = Some status_streaming
   /\ isRecording s1 = true
   /\ recordingDuration s1 = 7
   /\ isStreaming s1 = true)
  /\ (isServerConnected s2 = true
      /\ cameraStatus s2 = Some status_at_100
      /\ (current_mode <$> cameraStatus s2) = Some (current_mode status_at_100)
      /\ (recording <$> cameraStatus s2) = Some (recording status_at_100)
      /\ isRecording s2 = false
      /\ recordingDuration s2 = 0).
Proof.
  apply (C5_disconnect_then_recover (NotOk None) status_at_100
           Props2.recording_state).
  reflexivity.
Defined.

End StatusFacts.

(** ** The event loop: commands, gates and the feed *)

Module AppFacts.

Import Stream App Props.

Lemma count_delete {A} (f : A -> bool) (l : list A) (n : nat) (x : A) :
  l !! n = Some x ->
  length (List.filter f l)
  = (length (List.filter f (delete n l)) + (if f x then 1 else 0))%nat.
Proof.
  revert n. induction l as [|y l IH]; intros [|n] H; try discriminate H.
  - injection H as ->. cbn. destruct (f x); cbn; lia.
  - specialize (IH n H). simpl. destruct (f y), (f x); simpl in *; lia.
Qed.

Ltac count_app :=
  unfold loading_in_flight in *; cbn in *;
  rewrite ?List.filter_app, ?length_app in *; cbn in *;
  try lia.

Lemma step_keeps_loading_count (w : Sys) (e : Event) :
  loading_in_flight w = (if isLoading (cam w) then 1 else 0)%nat ->
  loading_in_flight (step w e)
  = (if isLoading (cam (step w e)) then 1 else 0)%nat.
Proof.
  destruct w as [c sl fl tm tr sr]. intros Hinv.
  destruct e as [b|modeId| | | | | |n now r|n now].
  - destruct c as [str cs ld er conn cap lc csu rec rd lr rsu].
    destruct b;
      unfold step, run_cam, click, rendered, disabled, no_status; cbn;
      destruct str, ld, conn, cap, rec, cs; count_app.
  - unfold step. cbn.
    destruct (Selector.select_disabled _ _); [exact Hinv|].
    destruct (Selector.changeMode_begin _ _) as [[sl' q]|]; [|exact Hinv].
    count_app.
  - unfold step. cbn.
    destruct (Selector.refresh_disabled _ _); [exact Hinv|]. count_app.
  - count_app.
  - unfold step, durationTick. cbn. destruct (isRecording c); exact Hinv.
  - unfold step, handleImageError, imgRef_current. cbn.
    destruct (isStreaming c) eqn:Hs; [|exact Hinv].
    unfold run_cam. cbn. rewrite Hs. cbn. exact Hinv.
  - unfold step, imgRef_current. cbn. destruct (isStreaming c); exact Hinv.
  - unfold step. cbn. destruct (fl !! n) as [p|] eqn:Hp; [|exact Hinv].
    pose proof (count_delete holds_loading fl n p Hp) as Hd.
    set (fl' := delete n fl) in *. clearbody fl'. clear Hp.
    destruct c as [str cs ld er conn cap lc csu rec rd lr rsu].
    destruct p as [[[|b|b]| | |b| | | ]| |modes0 modeId b];
      destruct r as [r|r|r|r|r|r]; try exact Hinv;
      unfold loading_in_flight in Hinv; cbn in Hinv; rewrite Hd in Hinv;
      clear Hd;
      destruct r as [|e|[body|]]; destruct ld, str;
      unfold loading_in_flight, resume, run_cam; cbn in *; try lia;
      repeat case_match; simplify_eq; cbn in *;
      rewrite ?List.filter_app, ?length_app; cbn; try lia.
  - unfold step. cbn. destruct (tm !! n) as [t|] eqn:Ht; [|exact Hinv].
    destruct c as [str cs ld er conn cap lc csu rec rd lr rsu].
    destruct t as [| | |b| |]; unfold run_cam; cbn; try exact Hinv;
      destruct str; try destruct b; count_app.
Qed.

(** At most one of start, stop and restart is in flight, and [isLoading]
    is set exactly while one is. *)
Lemma loading_count_reachable (w : Sys) :
  reachable w ->
  loading_in_flight w = (if isLoading (cam w) then 1 else 0)%nat.
Proof.
  intros [es ->]. induction es as [|e es IH] using rev_ind.
  - reflexivity.
  - unfold run in *. rewrite foldl_snoc.
    apply step_keeps_loading_count, IH.
Qed.

Lemma count_elem {A} (f : A -> bool) (l : list A) (x : A) :
  x ∈ l -> f x = true -> (1 <= length (List.filter f l))%nat.
Proof.
  intros Hx Hf. induction Hx as [x l|x y l _ IH]; simpl.
  - rewrite Hf. simpl. lia.
  - specialize (IH Hf). destruct (f y); simpl; lia.
Qed.

Lemma gated_event_ignored (w : Sys) (e : Event) :
  isLoading (cam w) = true -> loading_gated e = true -> step w e = w.
Proof.
  destruct w as [c sl fl tm tr sr]. cbn. intros Hl He.
  destruct e as [[]|modeId| | | | | |n now r|n now]; try discriminate He;
    unfold step, run_cam, click, disabled, rendered, selector_disabled,
      Selector.select_disabled, Selector.refresh_disabled; cbn;
    rewrite Hl; cbn;
    rewrite ?andb_false_r, ?orb_true_r; cbn; reflexivity.
Qed.

Lemma poll_goes_out (w : Sys) :
  transport (step w Poll) = transport w ++ [GET_status]
  /\ cam (step w Poll) = cam w.
Proof. destruct w. split; reflexivity. Qed.

(** The sample pages are states of the event loop. *)
Lemma sample_pages_reachable :
  reachable connected_page /\ reachable starting_page
  /\ reachable record_pending_page /\ reachable streaming_page
  /\ reachable restart_pending_page /\ reachable restarting_page
  /\ reachable modes_page.
Proof.
  repeat split.
  - exists [Response 1 0 (R_status (Ok (Some status_at_100)))].
    vm_compute. reflexivity.
  - exists [Response 1 0 (R_status (Ok (Some status_at_100)));
            Click StartStream].
    vm_compute. reflexivity.
  - exists [Response 1 0 (R_status (Ok (Some status_at_100)));
            Click StartRecording].
    vm_compute. reflexivity.
  - exists [Response 1 0 (R_status (Ok (Some status_at_100)));
            Click StartStream; Response 1 0 (R_plain (Ok None)); Fire 0 1000;
            Fire 0 3000;
            Response 1 3100 (R_status (Ok (Some status_streaming)))].
    vm_compute. reflexivity.
  - exists [Response 1 0 (R_status (Ok (Some status_at_100)));
            Click StartStream; Response 1 0 (R_plain (Ok None)); Fire 0 1000;
            Fire 0 3000;
            Response 1 3100 (R_status (Ok (Some status_streaming)));
            Click RestartCamera].
    vm_compute. reflexivity.
  - exists [Response 1 0 (R_status (Ok (Some status_at_100)));
            Click StartStream; Response 1 0 (R_plain (Ok None)); Fire 0 1000;
            Fire 0 3000;
            Response 1 3100 (R_status (Ok (Some status_streaming)));
            Click RestartCamera; Response 1 4000 (R_plain (Ok None))].
    vm_compute. reflexivity.
  - exists [Response 0 0
              (R_modes
                 (Ok (Some (Selector.mkCameraModeData [hd_mode]
                              (Selector.Current.mk 1920 1080 30 "HD")))))].
    vm_compute. reflexivity.
Qed.

(** Two polls in flight: the reply to the later one arrives first, the
    reply to the earlier one, stamped 90, arrives last and is what the page
    shows. *)
Lemma stale_poll_reply_is_shown :
  cameraStatus
    (cam (run connected_page
            [Poll; Poll; Response 2 0 (R_status (Ok (Some status_at_100)));
             Response 1 0 (R_status (Ok (Some status_at_90)))]))
  = Some status_at_90.
Proof. vm_compute. reflexivity. Qed.

(** C1, as stated, fails: on the connected page nothing says streaming, and
    a click on Start Recording posts the request. *)
Lemma C1_recording_starts_without_stream : ~ streaming_gate_claim.
Proof.
  intros [_ H]. specialize (H connected_page eq_refl eq_refl).
  vm_compute in H. discriminate H.
Qed.

(** Start Recording does not look at the streaming flag: its request goes
    out exactly when the button is shown and the server is connected with
    a known status. *)
Lemma start_recording_gate (w : Sys) :
  transport (step w (Click StartRecording))
  = if negb (isRecording (cam w)) && isServerConnected (cam w)
       && negb (no_status (cam w))
    then transport w ++ [POST_recording_start]
    else transport w.
Proof.
  destruct w as [c sl fl tm tr sr].
  unfold step, run_cam, click, disabled, rendered. cbn.
  destruct (isRecording c), (isServerConnected c), (no_status c);
    reflexivity.
Qed.

(** C1, amended. While the page's streaming flag is off, a click on Take
    Picture does nothing at all: the handler is not entered, no request
    goes out, no state changes and no error value is produced. *)
Theorem C1_capture_needs_streaming (w : Sys) :
  isStreaming (cam w) = false ->
  click TakePicture (cam w) = (cam w, [])
  /\ step w (Click TakePicture) = w
  /\ transport (step w (Click TakePicture)) = transport w
  /\ error (cam (step w (Click TakePicture))) = error (cam w).
Proof.
  destruct w as [c sl fl tm tr sr]. cbn. intros Hs.
  assert (Hc : click TakePicture c = (c, [])).
  { unfold click, disabled. cbn. rewrite Hs. cbn.
    rewrite !orb_true_r. reflexivity. }
  unfold step, run_cam. cbn. rewrite Hc. cbn. repeat split.
Qed.

Lemma C1_witness :
  click TakePicture (cam connected_page) = (cam connected_page, [])
  /\ step connected_page (Click TakePicture) = connected_page
  /\ transport (step connected_page (Click TakePicture))
     = transport connected_page
  /\ error (cam (step connected_page (Click TakePicture)))
     = error (cam connected_page).
Proof. exact (C1_capture_needs_streaming connected_page eq_refl). Defined.

(** C2, as stated, fails: with one Start Recording in flight a second
    click posts a second request. *)
Lemma C2_second_command_goes_out : ~ busy_gate_claim.
Proof.
  intros H.
  specialize (H record_pending_page (Click StartRecording)).
  assert (Hr : reachable record_pending_page).
  { exists [Response 1 0 (R_status (Ok (Some status_at_100)));
            Click StartRecording]. vm_compute. reflexivity. }
  assert (Hc : command_in_flight record_pending_page).
  { exists (P_stream K_startRecording). split; [|reflexivity].
    apply list_elem_of_further, list_elem_of_here. }
  specialize (H Hr Hc eq_refl). vm_compute in H. discriminate H.
Qed.

(** C2, amended. Whenever a start-stream, stop-stream or restart command is
    in flight, [isLoading] is set and no second such command is in flight;
    a request made then through Start Stream, Stop Stream, Restart Camera,
    Refresh Status, the mode selector or Refresh Modes is ignored: no
    request goes out, no state changes, no error value is produced.  The
    timed status poll goes out all the same. *)
Theorem C2_loading_serializes (w : Sys) (p : Pending) (e : Event) :
  reachable w ->
  p ∈ inflight w -> holds_loading p = true ->
  loading_gated e = true ->
  isLoading (cam w) = true
  /\ loading_in_flight w = 1%nat
  /\ step w e = w
  /\ transport (step w Poll) = transport w ++ [GET_status].
Proof.
  intros Hr Hp Hl He.
  pose proof (loading_count_reachable w Hr) as Hinv.
  pose proof (count_elem holds_loading _ _ Hp Hl) as Hge.
  fold (loading_in_flight w) in Hge.
  destruct (isLoading (cam w)) eqn:Hld; [|lia].
  split; [reflexivity|]. split; [exact Hinv|]. split.
  - apply gated_event_ignored; assumption.
  - apply poll_goes_out.
Qed.

Lemma C2_witness :
  let w := starting_page in
  isLoading (cam w) = true
  /\ loading_in_flight w = 1%nat
  /\ step w (Click RestartCamera) = w
  /\ transport (step w Poll) = transport w ++ [GET_status].
Proof.
  assert (Hr : reachable starting_page).
  { exists [Response 1 0 (R_status (Ok (Some status_at_100)));
            Click StartStream]. vm_compute. reflexivity. }
  assert (Hp : P_stream K_startStreaming ∈ inflight starting_page).
  { apply list_elem_of_further, list_elem_of_here. }
  exact (C2_loading_serializes starting_page (P_stream K_startStreaming)
           (Click RestartCamera) Hr Hp eq_refl eq_refl).
Defined.

(** One feed error and its timer, on a streaming page with no timer
    pending: the source is assigned once more and nothing else changes. *)
Lemma feed_error_round (w : Sys) (t : Z) :
  isStreaming (cam w) = true -> timers w = [] ->
  run w [ImgError; Fire 0 t]
  = mkSys (cam w) (sel w) (inflight w) [] (transport w)
          (srcs w ++ [StreamUrl t]).
Proof.
  destruct w as [c sl fl tm tr sr]. cbn. intros Hs ->.
  unfold step, run_cam, handleImageError, imgRef_current. cbn.
  rewrite Hs. cbn. unfold retryStream_fire, imgRef_current. cbn.
  rewrite Hs. reflexivity.
Qed.

Lemma opens_snoc (w : Sys) (t : Z) :
  opens (mkSys (cam w) (sel w) (inflight w) [] (transport w)
               (srcs w ++ [StreamUrl t]))
  = S (opens w).
Proof.
  unfold opens. cbn. rewrite List.filter_app, length_app. cbn. lia.
Qed.

Lemma feed_errors_reopen (n : nat) (w : Sys) (t : Z) :
  isStreaming (cam w) = true -> timers w = [] ->
  let w' := run w (feed_errors n t) in
  cam w' = cam w /\ timers w' = [] /\ transport w' = transport w
  /\ opens w' = (opens w + n)%nat.
Proof.
  revert w t. induction n as [|n IH]; intros w t Hs Ht.
  - cbn. repeat split; [assumption|lia].
  - cbn [feed_errors]. unfold run in *.
    change (ImgError :: Fire 0 (t + 2000) :: feed_errors n (t + 2000))
      with ([ImgError; Fire 0 (t + 2000)] ++ feed_errors n (t + 2000)).
    rewrite foldl_app. fold (run w [ImgError; Fire 0 (t + 2000)]).
    rewrite (feed_error_round w _ Hs Ht).
    destruct (IH (mkSys (cam w) (sel w) (inflight w) [] (transport w)
                        (srcs w ++ [StreamUrl (t + 2000)])) (t + 2000)
                 Hs eq_refl) as (Hc & Htm & Htr & Ho).
    cbn in Hc, Htr. rewrite opens_snoc in Ho.
    repeat split; try assumption. lia.
Qed.

(** C3, what the code does: on the streaming page, which has opened the
    feed once, [n] feed errors in a row lead to [n] more assignments of a
    stream URL; the page still counts as streaming, shows no error and has
    sent no request. *)
Theorem C3_every_error_reopens (n : nat) :
  let w := run streaming_page (feed_errors n 3100) in
  opens w = S n
  /\ isStreaming (cam w) = true
  /\ error (cam w) = None
  /\ transport w = transport streaming_page.
Proof.
  destruct (feed_errors_reopen n streaming_page 3100 eq_refl eq_refl)
    as (Hc & _ & Htr & Ho).
  cbn zeta. rewrite Ho, Hc, Htr. repeat split.
Qed.

(** C6. Selecting the mode that is already current returns on the first
    line of [changeMode]: no request, no state change, no error. *)
Theorem C6_current_mode_is_noop (w : Sys) (m : Selector.CameraMode) :
  Selector.currentMode (sel w) = Some m ->
  Selector.changeMode_begin (Selector.id m) (sel w) = None
  /\ step w (SelectMode (Selector.id m)) = w
  /\ transport (step w (SelectMode (Selector.id m))) = transport w.
Proof.
  intros Hm.
  assert (Hb : Selector.changeMode_begin (Selector.id m) (sel w) = None).
  { unfold Selector.changeMode_begin, Selector.changeMode_skips.
    rewrite Hm, String.eqb_refl, orb_true_r. reflexivity. }
  assert (Hs : step w (SelectMode (Selector.id m)) = w).
  { unfold step. rewrite Hb.
    destruct (Selector.select_disabled _ _); reflexivity. }
  rewrite Hs. repeat split; assumption.
Qed.

Lemma C6_witness :
  Selector.changeMode_begin "hd" (sel modes_page) = None
  /\ step modes_page (SelectMode "hd") = modes_page
  /\ transport (step modes_page (SelectMode "hd")) = transport modes_page.
Proof. exact (C6_current_mode_is_noop modes_page hd_mode eq_refl). Defined.

(** The part of a handler that runs at the click leaves the streaming and
    recording flags alone. *)
Lemma click_keeps_streaming_recording (w : Sys) (b : Button) :
  isStreaming (cam (step w (Click b))) = isStreaming (cam w)
  /\ isRecording (cam (step w (Click b))) = isRecording (cam w).
Proof.
  destruct w as [c sl fl tm tr sr].
  unfold step, run_cam, click. cbn.
  destruct (rendered b c && negb (disabled b c)); [|split; reflexivity].
  destruct b; split; reflexivity.
Qed.

(** C7. When a command fails (the fetch rejects, the response is not OK,
    or the body the handler parses does not parse), the streaming flag, the
    recording flag and duration and the visible status are what they were
    when the reply arrived, and the click that issued the command had not
    touched the two flags either; the busy flag of the command is cleared;
    the error cell of its component holds a message that is not empty, so
    the alert is rendered, and that message is the server's own error text
    where the handler reads it and the server sent one; nothing is sent or
    scheduled: the handler is gone from the requests in flight, and the
    request log, the timers and the image source are unchanged. *)
Theorem C7_failed_command_restores
    (w : Sys) (n : nat) (now : Z) (p : Pending) (r : AnyReply) (b : Button) :
  inflight w !! n = Some p ->
  is_command p = true -> answers r p = true ->
  Props2.command_failed p r = true ->
  let w' := step w (Response n now r) in
  (isStreaming (cam w') = isStreaming (cam w)
   /\ isRecording (cam w') = isRecording (cam w)
   /\ recordingDuration (cam w') = recordingDuration (cam w)
   /\ cameraStatus (cam w') = cameraStatus (cam w))
  /\ (isStreaming (cam (step w (Click b))) = isStreaming (cam w)
      /\ isRecording (cam (step w (Click b))) = isRecording (cam w))
  /\ busy p w' = false
  /\ surfaced p w' <> None
  /\ Props2.alert_shown (surfaced p w') = true
  /\ (forall e : string,
        Props2.server_error r = Some e -> e <> "" ->
        Props2.shows_server_error p = true ->
        surfaced p w' = Some e)
  /\ (inflight w' = delete n (inflight w)
      /\ transport w' = transport w
      /\ timers w' = timers w
      /\ srcs w' = srcs w).
Proof.
  intros Hp Hc Ha Hf.
  assert (Hor : forall e fb, String.eqb fb "" = false ->
            String.eqb (or_default e fb) "" = false).
  { intros [m|] fb Hfb; cbn; [|exact Hfb].
    destruct (String.eqb m "") eqn:Hm; [exact Hfb|exact Hm]. }
  assert (Hsrv : forall e fb, e <> "" -> or_default (Some e) fb = e).
  { intros e fb He. cbn. destruct (String.eqb_spec e ""); congruence. }
  split; [|split; [apply click_keeps_streaming_recording|]];
    destruct w as [c sl fl tm tr sr]; cbn in Hp; unfold step; cbn;
    rewrite Hp;
    destruct p as [[a| | |b0| | | ]| |modes0 modeId b0]; try discriminate Hc;
    destruct r as [r|r|r|r|r|r]; try discriminate Ha;
    destruct r as [|e|[body|]]; try discriminate Hf;
    cbn; repeat split; try discriminate;
    try (rewrite Hor; reflexivity);
    try (intros e' He' Hne Hs;
         first [ discriminate He' | discriminate Hs
               | subst; rewrite Hsrv by exact Hne; reflexivity ]).
Qed.

Lemma C7_witness :
  let w := starting_page in
  let w' := step w (Response 1 0 (R_plain (NotOk (Some "Camera is busy")))) in
  (isStreaming (cam w') = isStreaming (cam w)
   /\ isRecording (cam w') = isRecording (cam w)
   /\ recordingDuration (cam w') = recordingDuration (cam w)
   /\ cameraStatus (cam w') = cameraStatus (cam w))
  /\ (isStreaming (cam (step w (Click StopStream))) = isStreaming (cam w)
      /\ isRecording (cam (step w (Click StopStream))) = isRecording (cam w))
  /\ isLoading (cam w') = false
  /\ error (cam w') <> None
  /\ Props2.alert_shown (error (cam w')) = true
  /\ (forall e : string,
        Some "Camera is busy" = Some e -> e <> "" -> true = true ->
        error (cam w') = Some e)
  /\ (inflight w' = delete 1%nat (inflight w)
      /\ transport w' = transport w
      /\ timers w' = timers w
      /\ srcs w' = srcs w).
Proof.
  exact (C7_failed_command_restores starting_page 1%nat 0
           (P_stream K_startStreaming)
           (R_plain (NotOk (Some "Camera is busy"))) StopStream
           eq_refl eq_refl eq_refl eq_refl).
Defined.




End AppFacts.

(** ** Gallery: every outcome of a refresh *)

Module GalleryMore.

Import Gallery Props2.

(** X1. Whatever the two gallery fetches come back with, the loading flag
    is cleared.  The lists are replaced only when both responses are OK and
    both bodies parse, and the error cell is then left alone; otherwise the
    lists shown before stay and an error is set: the failed-fetch message
    when no fetch rejected and a response was not OK, the connection
    message in every other case. *)
Theorem gallery_refresh_outcomes
    (p : Reply PicturesBody.t) (r : Reply RecordingsBody.t) (s : State) :
  let s' := fetchGalleryData_resume p r s in
  isLoading s' = false
  /\ activeTab s' = activeTab s
  /\ if gallery_delivered p r
     then error s' = error s
     else galleryData s' = galleryData s
          /\ error s'
             = Some (if negb (gallery_rejected p || gallery_rejected r)
                        && (gallery_not_ok p || gallery_not_ok r)
                     then "Failed to fetch gallery data"
                     else "Error connecting to camera server").
Proof.
  destruct p as [|e|[bp|]], r as [|e'|[br|]]; cbn; repeat split.
Qed.

(** X2. A whole refresh, from the click to the replies: the error cell
    ends up empty exactly when both lists were delivered, so a refresh that
    works wipes the error of an earlier one, and the button is enabled
    again in every case. *)
Theorem gallery_refresh_cycle
    (p : Reply PicturesBody.t) (r : Reply RecordingsBody.t) (s : State) :
  let s' := fetchGalleryData_resume p r (fst (fetchGalleryData_begin s)) in
  snd (fetchGalleryData_begin s) = [GET_pictures; GET_recordings]
  /\ isLoading (fst (fetchGalleryData_begin s)) = true
  /\ isLoading s' = false
  /\ (error s' = None <-> gallery_delivered p r = true).
Proof.
  destruct p as [|e|[bp|]], r as [|e'|[br|]]; cbn;
    repeat split; intros; try discriminate; reflexivity.
Qed.

Lemma foldl_sizes (l : list MediaFile) (a : Z) :
  foldl (fun sum file => sum + size file) a l = a + sum_sizes l.
Proof.
  revert a. induction l as [|f l IH]; intros a; cbn.
  - lia.
  - rewrite IH. unfold sum_sizes. cbn. lia.
Qed.

Lemma sum_sizes_app (l k : list MediaFile) :
  sum_sizes (l ++ k) = sum_sizes l + sum_sizes k.
Proof.
  induction l as [|f l IH]; cbn; [reflexivity|].
  unfold sum_sizes in *. cbn. rewrite IH. lia.
Qed.

Lemma sum_sizes_nonneg (l : list MediaFile) :
  Forall (fun f => 0 <= size f) l -> 0 <= sum_sizes l.
Proof.
  induction 1 as [|f l Hf _ IH]; unfold sum_sizes in *; cbn; lia.
Qed.

(** X3. When no file has a negative size and the sizes together stay
    within 2^53, so that the running sum of the header is exact, the total
    size is the size of the pictures plus the size of the recordings and
    stays within 2^53 itself.  The file count is the number of pictures
    plus the number of recordings, and is zero exactly when both lists are
    empty. *)
Theorem gallery_totals_split (s : State) :
  exact_sizes (pictures (galleryData s) ++ recordings (galleryData s)) ->
  (totalSize s
   = sum_sizes (pictures (galleryData s))
     + sum_sizes (recordings (galleryData s))
   /\ 0 <= totalSize s <= 2 ^ 53)
  /\ totalFiles s
     = length (pictures (galleryData s) ++ recordings (galleryData s))
  /\ (totalFiles s = 0%nat <->
      pictures (galleryData s) = [] /\ recordings (galleryData s) = []).
Proof.
  intros [Hpos Hsum]. pose proof (sum_sizes_nonneg _ Hpos) as Hge.
  rewrite sum_sizes_app in Hsum, Hge.
  unfold totalSize, totalFiles. rewrite foldl_sizes, sum_sizes_app, length_app.
  split; [lia|]. split; [reflexivity|].
  destruct (pictures (galleryData s)), (recordings (galleryData s)); cbn;
    split; try lia; try (intros [? ?]; discriminate); auto.
Qed.

Lemma gallery_totals_split_witness :
  (totalSize sample_gallery = 2048 + 1048576
   /\ 0 <= totalSize sample_gallery <= 2 ^ 53)
  /\ totalFiles sample_gallery = 2%nat
  /\ (totalFiles sample_gallery = 0%nat <->
      [sample_picture] = [] /\ [sample_recording] = []).
Proof.
  apply (gallery_totals_split sample_gallery).
  split; [repeat constructor; cbn; lia|cbn; lia].
Defined.

(** X4. When no file has a negative size, the total size is not negative
    and no single file is larger than the total. *)
Theorem gallery_total_bounds (s : State) (f : MediaFile) :
  Forall (fun f => 0 <= size f)
    (pictures (galleryData s) ++ recordings (galleryData s)) ->
  f ∈ pictures (galleryData s) ++ recordings (galleryData s) ->
  0 <= size f <= totalSize s.
Proof.
  unfold totalSize. rewrite foldl_sizes.
  generalize (pictures (galleryData s) ++ recordings (galleryData s)).
  intros l Hall Hin. induction Hall as [|g l Hg Hall IH].
  - inversion Hin.
  - pose proof (sum_sizes_nonneg l Hall) as Hl.
    unfold sum_sizes in *. cbn.
    apply elem_of_cons in Hin as [->|Hin]; [lia|].
    specialize (IH Hin). lia.
Qed.

Lemma gallery_total_bounds_witness :
  0 <= size sample_recording <= totalSize sample_gallery.
Proof.
  apply (gallery_total_bounds sample_gallery sample_recording).
  - repeat constructor; cbn; lia.
  - apply list_elem_of_further, list_elem_of_here.
Defined.

End GalleryMore.

(** ** Mode selector: listing and changing modes *)

Module SelectorMore.

Import Selector Props2.
Import Props (hd_mode).

Lemma find_geometry (c : Current.t) (l : list CameraMode) (m : CameraMode) :
  m ∈ l -> same_geometry c m = true ->
  exists l1 m' l2,
    l = l1 ++ m' :: l2
    /\ List.find (same_geometry c) l = Some m'
    /\ same_geometry c m' = true
    /\ Forall (fun x => same_geometry c x = false) l1.
Proof.
  intros Hin Hm. induction Hin as [m l|m y l Hin IH].
  - exists [], m, l. cbn. rewrite Hm. repeat split. constructor.
  - destruct (same_geometry c y) eqn:Hy.
    + exists [], y, l. cbn. rewrite Hy.
      repeat split; try assumption; constructor.
    + destruct (IH Hm) as (l1 & m' & l2 & -> & Hf & Hg & Hall).
      exists (y :: l1), m', l2. cbn. rewrite Hy.
      repeat split; try assumption. constructor; assumption.
Qed.

(** X5. When the list of modes arrives and one of them has the width,
    height and frame rate the camera reports, the selector shows the list,
    and its current mode is the first listed mode with that geometry: it is
    in the list, no mode before it matches, and its id is the selected
    value.  The loading flag is cleared and no error is raised. *)
Theorem fetchModes_picks_first_match
    (data : CameraModeData) (m : CameraMode) (s : State) :
  m ∈ available_modes data ->
  same_geometry (current_mode data) m = true ->
  let s' := fetchModes_resume (Ok (Some data)) s in
  modes s' = available_modes data
  /\ isLoading s' = false
  /\ error s' = error s
  /\ exists l1 current l2,
       available_modes data = l1 ++ current :: l2
       /\ Forall (fun x => same_geometry (current_mode data) x = false) l1
       /\ currentMode s' = Some current
       /\ selectedModeId s' = id current
       /\ width current = Current.width (current_mode data)
       /\ height current = Current.height (current_mode data)
       /\ framerate current = Current.framerate (current_mode data).
Proof.
  intros Hin Hm.
  destruct (find_geometry _ _ _ Hin Hm) as (l1 & c & l2 & Hl & Hf & Hg & Hall).
  cbn. rewrite Hf. cbn. repeat split.
  exists l1, c, l2. repeat split; try assumption.
  all: unfold same_geometry in Hg;
    apply andb_prop in Hg as [Hg Hfr]; apply andb_prop in Hg as [Hw Hh];
    lia.
Qed.

Lemma fetchModes_picks_first_match_witness :
  let s' := fetchModes_resume (Ok (Some two_modes)) init in
  modes s' = [vga_mode; hd_mode]
  /\ isLoading s' = false
  /\ error s' = None
  /\ exists l1 current l2,
       [vga_mode; hd_mode] = l1 ++ current :: l2
       /\ Forall (fun x => same_geometry (current_mode two_modes) x = false)
            l1
       /\ currentMode s' = Some current
       /\ selectedModeId s' = id current
       /\ width current = 1920
       /\ height current = 1080
       /\ framerate current = 30.
Proof.
  apply (fetchModes_picks_first_match two_modes hd_mode init).
  - apply list_elem_of_further, list_elem_of_here.
  - reflexivity.
Defined.

Lemma find_no_geometry (c : Current.t) (l : list CameraMode) :
  Forall (fun x => same_geometry c x = false) l ->
  List.find (same_geometry c) l = None.
Proof.
  induction 1 as [|x l Hx _ IH]; cbn; [reflexivity|]. rewrite Hx. exact IH.
Qed.

(** X6. When the list of modes arrives and none of them has the geometry
    the camera reports, the list is replaced but the current mode and the
    selected value stay what they were, whether or not that mode is still
    listed. *)
Theorem fetchModes_without_match_keeps_current
    (data : CameraModeData) (s : State) :
  Forall (fun x => same_geometry (current_mode data) x = false)
    (available_modes data) ->
  let s' := fetchModes_resume (Ok (Some data)) s in
  modes s' = available_modes data
  /\ currentMode s' = currentMode s
  /\ selectedModeId s' = selectedModeId s
  /\ isLoading s' = false
  /\ error s' = error s.
Proof.
  intros Hall. cbn. rewrite (find_no_geometry _ _ Hall). cbn. repeat split.
Qed.

Lemma fetchModes_without_match_witness :
  let s' := fetchModes_resume (Ok (Some only_vga)) stale_selector in
  modes s' = [vga_mode]
  /\ currentMode s' = Some hd_mode
  /\ selectedModeId s' = "hd"
  /\ isLoading s' = false
  /\ error s' = None.
Proof.
  apply (fetchModes_without_match_keeps_current only_vga stale_selector).
  repeat constructor.
Defined.

(** X7. A failed listing of modes keeps the list, the current mode and the
    selected value, clears the loading flag and sets an error. *)
Theorem fetchModes_failure_keeps_list
    (r : Reply CameraModeData) (s : State) :
  (forall data, r <> Ok (Some data)) ->
  let s' := fetchModes_resume r s in
  modes s' = modes s
  /\ currentMode s' = currentMode s
  /\ selectedModeId s' = selectedModeId s
  /\ isLoading s' = false
  /\ error s' <> None.
Proof.
  intros Hr. destruct r as [|e|[data|]]; cbn; repeat split; try discriminate.
  all: exfalso; apply (Hr data); reflexivity.
Qed.

Lemma fetchModes_failure_witness :
  let s' := fetchModes_resume (NotOk None) stale_selector in
  modes s' = [hd_mode]
  /\ currentMode s' = Some hd_mode
  /\ selectedModeId s' = "hd"
  /\ isLoading s' = false
  /\ error s' <> None.
Proof.
  apply (fetchModes_failure_keeps_list (NotOk None) stale_selector).
  intros data. discriminate.
Defined.

(** X8. [changeMode] returns without a request exactly when the id is
    empty or is the id of the current mode; in every other case it posts
    the id, sets the changing flag and clears the error. *)
Theorem changeMode_sends_iff (modeId : string) (s : State) :
  (changeMode_begin modeId s = None <->
   modeId = "" \/ exists m, currentMode s = Some m /\ id m = modeId)
  /\ (changeMode_begin modeId s = None
      \/ changeMode_begin modeId s
         = Some (setError None (setIsChanging true s), POST_mode modeId)).
Proof.
  unfold changeMode_begin, changeMode_skips.
  destruct (String.eqb_spec modeId "") as [->|Hne]; cbn.
  - split; [|left; reflexivity]. split; auto.
  - destruct (currentMode s) as [m|] eqn:Hm.
    + destruct (String.eqb_spec modeId (id m)) as [->|Hid].
      * split; [|left; reflexivity]. split; eauto.
      * split; [|right; reflexivity]. split; [discriminate|].
        intros [->|(m' & Hm' & <-)]; [contradiction|].
        injection Hm' as ->. contradiction.
    + split; [|right; reflexivity]. split; [discriminate|].
      intros [->|(m' & Hm' & _)]; [contradiction|discriminate].
Qed.

Lemma find_by_id (modes0 : list CameraMode) (modeId : string) (m : CameraMode) :
  List.find (fun mode => String.eqb (id mode) modeId) modes0 = Some m ->
  m ∈ modes0 /\ id m = modeId.
Proof.
  intros H. apply List.find_some in H as [Hin Hid].
  split; [apply list_elem_of_In; exact Hin|].
  apply String.eqb_eq. exact Hid.
Qed.

(** X9. Whatever the reply to a mode change, the changing flag is cleared
    and the list of modes is untouched; the current mode and the selected
    value either stay as they were, with no call of [onModeChange], or
    become a mode of the captured list that has the requested id, and this
    only on an OK reply whose body parses; [onModeChange] is then called
    with that mode when the prop was given. *)
Theorem changeMode_outcomes
    (modes0 : list CameraMode) (notify : bool) (modeId : string)
    (r : Reply unit) (s : State) :
  let '(s', call) := changeMode_resume modes0 notify modeId r s in
  isChanging s' = false
  /\ modes s' = modes s
  /\ ((currentMode s' = currentMode s
       /\ selectedModeId s' = selectedModeId s
       /\ call = None)
      \/ exists m,
           r = Ok (Some tt) /\ m ∈ modes0 /\ id m = modeId
           /\ currentMode s' = Some m
           /\ selectedModeId s' = modeId
           /\ error s' = error s
           /\ call = if notify then Some m else None).
Proof.
  unfold changeMode_resume.
  destruct r as [|e|[[]|]]; cbn; try (repeat split; left; repeat split).
  destruct (List.find _ modes0) as [m|] eqn:Hf; cbn.
  - destruct (find_by_id _ _ _ Hf) as [Hin Hid].
    repeat split. right. exists m. repeat split; assumption.
  - repeat split. left. repeat split.
Qed.

End SelectorMore.

(** ** What the page shows *)

Module ViewFacts.

Import Stream View Props2.

(** X10. After a status reply the page shows: the Disconnected badge and no
    status grid when the fetch failed, although the last status is kept;
    the Active or Inactive badge of the fresh status and the grid when it
    succeeded.  The error cell is empty exactly in the second case. *)
Theorem status_badge_after_poll (r : Reply CameraStatus) (s : State) :
  let s' := checkStatus_resume r s in
  match r with
  | Ok (Some c) =>
      getStatusBadge s'
      = match status c with active => Active | inactive => Inactive end
      /\ statusPanel_shown s' = true
      /\ error s' = None
  | _ =>
      getStatusBadge s' = Disconnected
      /\ statusPanel_shown s' = false
      /\ cameraStatus s' = cameraStatus s
      /\ error s' <> None
  end
  /\ getStreamingBadge s' = getStreamingBadge s.
Proof.
  destruct r as [|e|[c|]]; cbn.
  - split; [|reflexivity]. unfold getStatusBadge, statusPanel_shown. cbn.
    destruct (cameraStatus s); repeat split; discriminate.
  - split; [|reflexivity]. unfold getStatusBadge, statusPanel_shown. cbn.
    destruct (cameraStatus s); repeat split; discriminate.
  - unfold getStatusBadge, statusPanel_shown, getStreamingBadge.
    destruct (recording c); cbn; destruct (status c); repeat split.
  - split; [|reflexivity]. unfold getStatusBadge, statusPanel_shown. cbn.
    destruct (cameraStatus s); repeat split; discriminate.
Qed.

(** X11. Whenever the tip that asks to start streaming first is shown, the
    Take Picture button is disabled and a click on it does nothing, the
    Start Stream button is the one rendered and is enabled unless a
    command is loading, and the status badge reads Active.  Of the two
    recording buttons the one that is rendered, Start Recording while the
    page is not recording and Stop Recording while it is, is enabled, and
    a click on it sends its request. *)
Theorem tip_matches_controls (s : State) :
  tip_shown s = true ->
  (disabled TakePicture s = true /\ click TakePicture s = (s, []))
  /\ (rendered StartStream s = true /\ rendered StopStream s = false
      /\ disabled StartStream s = isLoading s)
  /\ (rendered StartRecording s = negb (isRecording s)
      /\ rendered StopRecording s = isRecording s
      /\ disabled StartRecording s = false
      /\ disabled StopRecording s = false
      /\ snd (click (if isRecording s then StopRecording else StartRecording)
                s)
         = [Fetch (if isRecording s then K_stopRecording
                   else K_startRecording)])
  /\ getStatusBadge s = Active.
Proof.
  unfold tip_shown, click, disabled, rendered, getStatusBadge, no_status.
  destruct (isStreaming s), (isServerConnected s), (cameraStatus s) as [c|];
    cbn; try discriminate.
  destruct (status c); try discriminate. intros _.
  rewrite !orb_true_r, !orb_false_r, ?andb_false_r.
  destruct (isRecording s) eqn:Hrec; cbn; rewrite ?Hrec; cbn;
    repeat split.
Qed.

Lemma tip_matches_controls_witness :
  let s := App.cam recording_page in
  (disabled TakePicture s = true /\ click TakePicture s = (s, []))
  /\ (rendered StartStream s = true /\ rendered StopStream s = false
      /\ disabled StartStream s = isLoading s)
  /\ (rendered StartRecording s = false
      /\ rendered StopRecording s = true
      /\ disabled StartRecording s = false
      /\ disabled StopRecording s = false
      /\ snd (click StopRecording s) = [Fetch K_stopRecording])
  /\ getStatusBadge s = Active.
Proof.
  exact (tip_matches_controls (App.cam recording_page) eq_refl).
Defined.

(** X12. The resolution badge reads 4K+ from a width of 3840, HD from 1920
    and SD below; the frame rate badge reads High FPS from 60, Standard
    from 30 and Low FPS below.  Neither badge goes down when the width or
    the frame rate goes up. *)
Theorem badges_follow_thresholds
    (m1 m2 : Selector.CameraMode) (f1 f2 : Z) :
  Selector.width m1 <= Selector.width m2 -> f1 <= f2 ->
  (resolution_rank (getResolutionBadge m1)
   <= resolution_rank (getResolutionBadge m2)
   /\ framerate_rank (getFramerateBadge f1)
      <= framerate_rank (getFramerateBadge f2))
  /\ ((getResolutionBadge m1 = UHD <-> 3840 <= Selector.width m1)
      /\ (getResolutionBadge m1 = HD <-> 1920 <= Selector.width m1 < 3840)
      /\ (getResolutionBadge m1 = SD <-> Selector.width m1 < 1920))
  /\ ((getFramerateBadge f1 = HighFPS <-> 60 <= f1)
      /\ (getFramerateBadge f1 = Standard <-> 30 <= f1 < 60)
      /\ (getFramerateBadge f1 = LowFPS <-> f1 < 30)).
Proof.
  intros Hw Hf. unfold getResolutionBadge, getFramerateBadge.
  destruct (Z.leb_spec 3840 (Selector.width m1)),
    (Z.leb_spec 1920 (Selector.width m1)),
    (Z.leb_spec 3840 (Selector.width m2)),
    (Z.leb_spec 1920 (Selector.width m2)),
    (Z.leb_spec 60 f1), (Z.leb_spec 30 f1),
    (Z.leb_spec 60 f2), (Z.leb_spec 30 f2);
    cbn; repeat split; intros; try discriminate; try lia.
Qed.

Lemma badges_follow_thresholds_witness :
  (resolution_rank (getResolutionBadge vga_mode)
   <= resolution_rank (getResolutionBadge Props.hd_mode)
   /\ framerate_rank (getFramerateBadge 30)
      <= framerate_rank (getFramerateBadge 60))
  /\ ((getResolutionBadge vga_mode = UHD <-> 3840 <= 640)
      /\ (getResolutionBadge vga_mode = HD <-> 1920 <= 640 < 3840)
      /\ (getResolutionBadge vga_mode = SD <-> 640 < 1920))
  /\ ((getFramerateBadge 30 = HighFPS <-> 60 <= 30)
      /\ (getFramerateBadge 30 = Standard <-> 30 <= 30 < 60)
      /\ (getFramerateBadge 30 = LowFPS <-> 30 < 30)).
Proof.
  apply (badges_follow_thresholds vga_mode Props.hd_mode 30 60); cbn; lia.
Defined.

(** X13. The duration timer adds one second per tick while the page is
    recording and does nothing otherwise; it touches no other cell. *)
Theorem duration_ticks_count (n : nat) (s : State) :
  Nat.iter n durationTick s
  = if isRecording s
    then setRecordingDuration (recordingDuration s + Z.of_nat n) s
    else s.
Proof.
  induction n as [|n IH].
  - cbn. destruct s as [str cs ld er conn cap lc csu rec rd lr rsu]. cbn.
    destruct rec; [|reflexivity]. unfold setRecordingDuration. cbn.
    rewrite Z.add_0_r. reflexivity.
  - rewrite Nat.iter_succ, IH. unfold durationTick.
    destruct (isRecording s) eqn:Hrec; cbn; rewrite Hrec; [|reflexivity].
    unfold setRecordingDuration. cbn. f_equal. lia.
Qed.

End ViewFacts.

(** ** CameraStream.tsx against the version with capture and recording *)

Module LegacyFacts.

Import Stream Props2.

Lemma shared_checkStatus (r : Reply CameraStatus) (s : State) :
  shared (checkStatus_resume r s)
  = Legacy.checkStatus_resume (forget_reply r) (shared s).
Proof.
  destruct r as [|e|[c|]]; cbn; try destruct (recording c); reflexivity.
Qed.

(** X14. On the cells the two versions of CameraStream share (streaming,
    status, loading, error, connected), every handler of the version with
    capture and recording does what the handler of [CameraStream.tsx]
    does: same cells afterwards, same request, same timers, same
    assignments to the image source; the shared buttons are rendered and
    disabled under the same conditions, and so is the mode selector. *)
Theorem newer_version_extends_legacy
    (s : State) (r : Reply CameraStatus) (u : Reply unit) (b : bool)
    (now : Z) (k : Legacy.Button) :
  shared (checkStatus_resume r s)
  = Legacy.checkStatus_resume (forget_reply r) (shared s)
  /\ shared_out (click (newer k) s) = Legacy.click k (shared s)
  /\ shared_out (startStreaming_resume u s)
     = Legacy.startStreaming_resume u (shared s)
  /\ shared_out (stopStreaming_resume u s)
     = Legacy.stopStreaming_resume u (shared s)
  /\ shared_out (restartCamera_resume b u s)
     = Legacy.restartCamera_resume b u (shared s)
  /\ shared_out (restartCamera_rest b s)
     = Legacy.restartCamera_rest b (shared s)
  /\ shared_out (openStream_fire now s) = Legacy.openStream_fire now (shared s)
  /\ shared_out (reopenAfterRestart_fire now s)
     = Legacy.reopenAfterRestart_fire now (shared s)
  /\ shared_out (handleImageError s) = Legacy.handleImageError (shared s)
  /\ shared_out (retryStream_fire b now s)
     = Legacy.retryStream_fire b now (shared s)
  /\ shared (handleImageLoad s) = Legacy.handleImageLoad (shared s)
  /\ shared_out (handleModeChange_begin b s)
     = Legacy.handleModeChange_begin b (shared s)
  /\ shared_out (handleModeChange_rest b now s)
     = Legacy.handleModeChange_rest b now (shared s)
  /\ selector_disabled s = Legacy.selector_disabled (shared s).
Proof.
  split; [apply shared_checkStatus|].
  destruct s as [str cs ld er conn cap lc csu rec rd lr rsu].
  repeat split.
  - destruct k, str, ld, conn; reflexivity.
  - destruct u as [|e|o]; reflexivity.
  - destruct u as [|e|o]; reflexivity.
  - destruct u as [|e|o]; reflexivity.
  - unfold handleImageError, Legacy.handleImageError. cbn.
    destruct str; reflexivity.
Qed.

End LegacyFacts.

(** ** The event loop: what is in flight, what is sent, what is opened *)

Module AppMore.

Import Stream App Props Props2.

Ltac flight_app :=
  unfold in_flight in *; cbn in *;
  rewrite ?List.filter_app, ?length_app in *; cbn in *;
  try lia.

Lemma step_keeps_capture_count (w : Sys) (e : Event) :
  in_flight is_capture w = (if isCapturing (cam w) then 1 else 0)%nat ->
  in_flight is_capture (step w e)
  = (if isCapturing (cam (step w e)) then 1 else 0)%nat.
Proof.
  destruct w as [c sl fl tm tr sr]. intros Hinv.
  destruct e as [b|modeId| | | | | |n now r|n now].
  - destruct c as [str cs ld er conn cap lc csu rec rd lr rsu].
    destruct b;
      unfold step, run_cam, click, rendered, disabled, no_status; cbn;
      destruct str, ld, conn, cap, rec, cs; flight_app.
  - unfold step. cbn.
    destruct (Selector.select_disabled _ _); [exact Hinv|].
    destruct (Selector.changeMode_begin _ _) as [[sl' q]|]; [|exact Hinv].
    flight_app.
  - unfold step. cbn.
    destruct (Selector.refresh_disabled _ _); [exact Hinv|]. flight_app.
  - flight_app.
  - unfold step, durationTick. cbn. destruct (isRecording c); exact Hinv.
  - unfold step, handleImageError, imgRef_current. cbn.
    destruct (isStreaming c) eqn:Hs; [|exact Hinv].
    unfold run_cam. cbn. rewrite Hs. cbn. exact Hinv.
  - unfold step, imgRef_current. cbn. destruct (isStreaming c); exact Hinv.
  - unfold step. cbn. destruct (fl !! n) as [p|] eqn:Hp; [|exact Hinv].
    pose proof (AppFacts.count_delete is_capture fl n p Hp) as Hd.
    set (fl' := delete n fl) in *. clearbody fl'. clear Hp.
    destruct c as [str cs ld er conn cap lc csu rec rd lr rsu].
    destruct p as [[[|b|b]| | |b| | | ]| |modes0 modeId b];
      destruct r as [r|r|r|r|r|r]; try exact Hinv;
      unfold in_flight in Hinv; cbn in Hinv; rewrite Hd in Hinv;
      clear Hd;
      destruct r as [|e|[body|]]; destruct cap, str;
      unfold in_flight, resume, run_cam; cbn in *; try lia;
      repeat case_match; simplify_eq; cbn in *;
      rewrite ?List.filter_app, ?length_app; cbn; try lia.
  - unfold step. cbn. destruct (tm !! n) as [t|] eqn:Ht; [|exact Hinv].
    destruct c as [str cs ld er conn cap lc csu rec rd lr rsu].
    destruct t as [| | |b| |]; unfold run_cam; cbn; try exact Hinv;
      destruct str; try destruct b; flight_app.
Qed.

Lemma capture_count_reachable (w : Sys) :
  reachable w ->
  in_flight is_capture w = (if isCapturing (cam w) then 1 else 0)%nat.
Proof.
  intros [es ->]. induction es as [|e es IH] using rev_ind.
  - reflexivity.
  - unfold run in *. rewrite foldl_snoc.
    apply step_keeps_capture_count, IH.
Qed.

(** X15. In every state the page can reach, a capture is in flight exactly
    when the capturing flag is set, and never more than one; while one is
    in flight a click on Take Picture is ignored: nothing is sent and
    nothing changes. *)
Theorem capture_is_serialized (w : Sys) :
  reachable w ->
  P_stream K_capturePicture ∈ inflight w ->
  isCapturing (cam w) = true
  /\ in_flight is_capture w = 1%nat
  /\ step w (Click TakePicture) = w.
Proof.
  intros Hr Hp.
  pose proof (capture_count_reachable w Hr) as Hinv.
  pose proof (AppFacts.count_elem is_capture _ _ Hp eq_refl) as Hge.
  fold (in_flight is_capture w) in Hge.
  destruct (isCapturing (cam w)) eqn:Hcap; [|lia].
  repeat split; [exact Hinv|].
  destruct w as [c sl fl tm tr sr]. cbn in Hcap.
  unfold step, run_cam, click, disabled. cbn. rewrite Hcap. reflexivity.
Qed.

Lemma capture_is_serialized_witness :
  isCapturing (cam capturing_page) = true
  /\ in_flight is_capture capturing_page = 1%nat
  /\ step capturing_page (Click TakePicture) = capturing_page.
Proof.
  assert (Hr : reachable capturing_page).
  { exists [Response 1 0 (R_status (Ok (Some status_at_100)));
            Click StartStream; Response 1 0 (R_plain (Ok None)); Fire 0 1000;
            Fire 0 3000;
            Response 1 3100 (R_status (Ok (Some status_streaming)));
            Click TakePicture].
    vm_compute. reflexivity. }
  assert (Hp : P_stream K_capturePicture ∈ inflight capturing_page).
  { apply list_elem_of_further, list_elem_of_here. }
  exact (capture_is_serialized capturing_page Hr Hp).
Defined.

Ltac flight_fin :=
  unfold in_flight in *; cbn in *;
  rewrite ?List.filter_app, ?length_app in *; cbn in *;
  repeat split; first [lia | assumption | reflexivity].

Lemma step_keeps_selector_inv (w : Sys) (e : Event) :
  selector_inv w -> selector_inv (step w e).
Proof.
  destruct w as [c [ms cm sid sld sch ser] fl tm tr sr].
  intros (Hfm & Hcm & Hex). unfold selector_inv in *.
  destruct e as [b|modeId| | | | | |n now r|n now].
  - destruct c as [str cs ld er conn cap lc csu rec rd lr rsu].
    destruct b;
      unfold step, run_cam, click, rendered, disabled, no_status; cbn;
      destruct str, ld, conn, cap, rec, cs; flight_fin.
  - unfold step, Selector.select_disabled, Selector.changeMode_begin. cbn.
    destruct sld, (selector_disabled c), sch; cbn in *; try flight_fin.
    destruct (Selector.changeMode_skips _ _); flight_fin.
  - unfold step, Selector.refresh_disabled. cbn.
    destruct sld, sch, (selector_disabled c); cbn in *; flight_fin.
  - flight_fin.
  - unfold step, durationTick. cbn. destruct (isRecording c); flight_fin.
  - unfold step, handleImageError, imgRef_current. cbn.
    destruct (isStreaming c) eqn:Hs; [|flight_fin].
    unfold run_cam. cbn. rewrite Hs. flight_fin.
  - unfold step, imgRef_current. cbn. destruct (isStreaming c); flight_fin.
  - unfold step. cbn. destruct (fl !! n) as [p|] eqn:Hp; [|flight_fin].
    pose proof (AppFacts.count_delete is_fetchModes fl n p Hp) as Hd1.
    pose proof (AppFacts.count_delete is_changeMode fl n p Hp) as Hd2.
    unfold in_flight in Hfm, Hcm; cbn in Hfm, Hcm.
    pose proof Hfm as Hfm0. pose proof Hcm as Hcm0.
    rewrite Hd1 in Hfm; rewrite Hd2 in Hcm; clear Hd1 Hd2.
    set (fl' := delete n fl) in *. clearbody fl'. clear Hp.
    destruct c as [str cs ld er conn cap lc csu rec rd lr rsu].
    destruct p as [[[|b|b]| | |b| | | ]| |modes0 modeId b];
      destruct r as [r|r|r|r|r|r];
      try destruct r as [|e|[body|]]; destruct sld, sch, str;
      unfold in_flight, resume, run_cam, Selector.changeMode_resume,
        Selector.fetchModes_resume; cbn in *;
      try discriminate; try lia;
      repeat case_match; simplify_eq; cbn in *;
      rewrite ?List.filter_app, ?length_app; cbn;
      repeat split; lia.
  - unfold step. cbn. destruct (tm !! n) as [t|] eqn:Ht; [|flight_fin].
    destruct c as [str cs ld er conn cap lc csu rec rd lr rsu].
    destruct t as [| | |b| |]; unfold run_cam; cbn;
      destruct str; try destruct b; flight_fin.
Qed.

Lemma selector_inv_reachable (w : Sys) : reachable w -> selector_inv w.
Proof.
  intros [es ->]. induction es as [|e es IH] using rev_ind.
  - repeat split.
  - unfold run in *. rewrite foldl_snoc.
    apply step_keeps_selector_inv, IH.
Qed.

(** X16. In every state the page can reach, the mode selector has at most
    one request in flight, a listing or a change; while it has one, its
    loading or changing flag is set, and both a selection and a click on
    Refresh Modes are ignored: nothing is sent and nothing changes. *)
Theorem selector_is_serialized (w : Sys) (p : Pending) (modeId : string) :
  reachable w ->
  p ∈ inflight w -> is_fetchModes p || is_changeMode p = true ->
  (in_flight is_fetchModes w + in_flight is_changeMode w = 1)%nat
  /\ Selector.isLoading (sel w) || Selector.isChanging (sel w) = true
  /\ step w (SelectMode modeId) = w
  /\ step w RefreshModes = w.
Proof.
  intros Hr Hp Hk.
  destruct (selector_inv_reachable w Hr) as (Hfm & Hcm & Hex).
  assert (Hge : (1 <= in_flight is_fetchModes w
                      + in_flight is_changeMode w)%nat).
  { apply orb_prop in Hk as [Hk|Hk].
    - pose proof (AppFacts.count_elem is_fetchModes _ _ Hp Hk) as H.
      fold (in_flight is_fetchModes w) in H. lia.
    - pose proof (AppFacts.count_elem is_changeMode _ _ Hp Hk) as H.
      fold (in_flight is_changeMode w) in H. lia. }
  destruct w as [c sl fl tm tr sr]. cbn in *.
  unfold step, Selector.select_disabled, Selector.refresh_disabled. cbn.
  destruct (Selector.isLoading sl), (Selector.isChanging sl);
    try discriminate Hex; cbn; rewrite ?orb_true_r; cbn;
    repeat split; lia.
Qed.

Lemma selector_is_serialized_witness :
  (in_flight is_fetchModes changing_page
   + in_flight is_changeMode changing_page = 1)%nat
  /\ Selector.isLoading (sel changing_page)
     || Selector.isChanging (sel changing_page) = true
  /\ step changing_page (SelectMode "vga") = changing_page
  /\ step changing_page RefreshModes = changing_page.
Proof.
  assert (Hr : reachable changing_page).
  { exists [Response 1 0 (R_status (Ok (Some status_at_100)));
            Response 0 0
              (R_modes
                 (Ok (Some (Selector.mkCameraModeData [vga_mode; hd_mode]
                              (Selector.Current.mk 640 480 30 "VGA")))));
            SelectMode "hd"].
    vm_compute. reflexivity. }
  assert (Hp : P_changeMode [vga_mode; hd_mode] "hd" false
               ∈ inflight changing_page).
  { apply list_elem_of_here. }
  exact (selector_is_serialized changing_page _ "vga" Hr Hp eq_refl).
Defined.

End AppMore.

(** ** The event loop: flags, requests and the feed *)

Module FlowFacts.

Import Stream App Props Props2.

(** X17. The streaming flag changes only when a start-stream request is
    answered OK (the flag goes up) or a stop-stream request is answered OK
    (the flag goes down); no status reply, image event, timer or other
    command touches it. *)
Theorem streaming_flag_changes (w : Sys) (e : Event) :
  isStreaming (cam (step w e)) <> isStreaming (cam w) ->
  exists n now body,
    e = Response n now (R_plain (Ok body))
    /\ ((inflight w !! n = Some (P_stream K_startStreaming)
         /\ isStreaming (cam w) = false
         /\ isStreaming (cam (step w e)) = true)
        \/ (inflight w !! n = Some (P_stream K_stopStreaming)
            /\ isStreaming (cam w) = true
            /\ isStreaming (cam (step w e)) = false)).
Proof.
  destruct w as [c sl fl tm tr sr].
  destruct c as [str cs ld er conn cap lc csu rec rd lr rsu].
  destruct e as [b|modeId| | | | | |n now r|n now]; cbn.
  - unfold run_cam, click, rendered, disabled, no_status. cbn.
    destruct b, str, ld, conn, cap, rec, cs; cbn; congruence.
  - destruct (Selector.select_disabled _ _); [cbn; congruence|].
    destruct (Selector.changeMode_begin _ _) as [[sl' q]|]; cbn; congruence.
  - destruct (Selector.refresh_disabled _ _); cbn; congruence.
  - congruence.
  - unfold durationTick. cbn. destruct rec; cbn; congruence.
  - unfold imgRef_current, run_cam, handleImageError. cbn.
    destruct str; cbn; congruence.
  - unfold imgRef_current. cbn. destruct str; cbn; congruence.
  - destruct (fl !! n) as [p|] eqn:Hp; [|cbn; congruence].
    destruct p as [[[|b|b]| | |b| | | ]| |modes0 modeId b];
      destruct r as [r|r|r|r|r|r]; try (cbn; congruence);
      destruct r as [|e|body]; destruct str;
      unfold resume, run_cam, Selector.changeMode_resume; cbn;
      repeat case_match; simplify_eq; cbn; try congruence;
      intros _; exists n, now, body; (split; [reflexivity|]); auto.
  - destruct (tm !! n) as [t|]; [|cbn; congruence].
    destruct t as [| | |b| |]; unfold run_cam; cbn;
      destruct str; try destruct b; cbn; congruence.
Qed.

Lemma streaming_flag_changes_witness :
  exists n now body,
    Response 1 0 (R_plain (Ok None)) = Response n now (R_plain (Ok body))
    /\ ((inflight starting_page !! n = Some (P_stream K_startStreaming)
         /\ isStreaming (cam starting_page) = false
         /\ isStreaming
              (cam (step starting_page (Response 1 0 (R_plain (Ok None)))))
            = true)
        \/ (inflight starting_page !! n = Some (P_stream K_stopStreaming)
            /\ isStreaming (cam starting_page) = true
            /\ isStreaming
                 (cam (step starting_page (Response 1 0 (R_plain (Ok None)))))
               = false)).
Proof.
  apply (streaming_flag_changes starting_page
           (Response 1 0 (R_plain (Ok None)))).
  vm_compute. discriminate.
Defined.

(** X18. The recording flag changes only by a start-recording reply that
    is OK with a body (the flag goes up), a stop-recording reply that is
    OK with a body (it goes down), or a status reply that is OK and
    carries a recording object, whose flag it takes.  Stopping or
    restarting the stream does not touch it. *)
Theorem recording_flag_changes (w : Sys) (e : Event) :
  isRecording (cam (step w e)) <> isRecording (cam w) ->
  exists n now,
    (exists x, e = Response n now (R_started (Ok (Some x)))
               /\ inflight w !! n = Some (P_stream K_startRecording)
               /\ isRecording (cam (step w e)) = true)
    \/ (exists x, e = Response n now (R_stopped (Ok (Some x)))
                  /\ inflight w !! n = Some (P_stream K_stopRecording)
                  /\ isRecording (cam (step w e)) = false)
    \/ (exists a c rs,
          e = Response n now (R_status (Ok (Some c)))
          /\ inflight w !! n = Some (P_stream (K_checkStatus a))
          /\ recording c = Some rs
          /\ isRecording (cam (step w e)) = RecordingStatus.recording rs).
Proof.
  destruct w as [c sl fl tm tr sr].
  destruct c as [str cs ld er conn cap lc csu rec rd lr rsu].
  destruct e as [b|modeId| | | | | |n now r|n now]; cbn.
  - unfold run_cam, click, rendered, disabled, no_status. cbn.
    destruct b, str, ld, conn, cap, rec, cs; cbn; congruence.
  - destruct (Selector.select_disabled _ _); [cbn; congruence|].
    destruct (Selector.changeMode_begin _ _) as [[sl' q]|]; cbn; congruence.
  - destruct (Selector.refresh_disabled _ _); cbn; congruence.
  - congruence.
  - unfold durationTick. cbn. destruct rec; cbn; congruence.
  - unfold imgRef_current, run_cam, handleImageError. cbn.
    destruct str; cbn; congruence.
  - unfold imgRef_current. cbn. destruct str; cbn; congruence.
  - destruct (fl !! n) as [p|] eqn:Hp; [|cbn; congruence].
    destruct p as [[[|b|b]| | |b| | | ]| |modes0 modeId b];
      destruct r as [r|r|r|r|r|r]; try (cbn; congruence);
      destruct r as [|e|[body|]]; destruct str;
      unfold resume, run_cam, Selector.changeMode_resume; cbn;
      try destruct (recording body) as [rs|] eqn:Hrs; cbn;
      repeat case_match; simplify_eq; cbn; try congruence;
      intros _; exists n, now;
      first [ left; exists body; repeat split;
              first [reflexivity | exact Hp]
            | right; left; exists body; repeat split;
              first [reflexivity | exact Hp]
            | right; right; eexists _, body, rs; repeat split;
              first [reflexivity | exact Hp | exact Hrs] ].
  - destruct (tm !! n) as [t|]; [|cbn; congruence].
    destruct t as [| | |b| |]; unfold run_cam; cbn;
      destruct str; try destruct b; cbn; congruence.
Qed.

Lemma recording_flag_changes_witness :
  exists n now,
    (exists x,
       Response 1 0 (R_started (Ok (Some (Started.mk "clip.mp4"))))
       = Response n now (R_started (Ok (Some x)))
       /\ inflight record_pending_page !! n
          = Some (P_stream K_startRecording)
       /\ isRecording
            (cam (step record_pending_page
                    (Response 1 0
                       (R_started (Ok (Some (Started.mk "clip.mp4")))))))
          = true)
    \/ (exists x,
          Response 1 0 (R_started (Ok (Some (Started.mk "clip.mp4"))))
          = Response n now (R_stopped (Ok (Some x)))
          /\ inflight record_pending_page !! n
             = Some (P_stream K_stopRecording)
          /\ isRecording
               (cam (step record_pending_page
                       (Response 1 0
                          (R_started (Ok (Some (Started.mk "clip.mp4")))))))
             = false)
    \/ (exists a c rs,
          Response 1 0 (R_started (Ok (Some (Started.mk "clip.mp4"))))
          = Response n now (R_status (Ok (Some c)))
          /\ inflight record_pending_page !! n
             = Some (P_stream (K_checkStatus a))
          /\ recording c = Some rs
          /\ isRecording
               (cam (step record_pending_page
                       (Response 1 0
                          (R_started (Ok (Some (Started.mk "clip.mp4")))))))
             = RecordingStatus.recording rs).
Proof.
  apply (recording_flag_changes record_pending_page
           (Response 1 0 (R_started (Ok (Some (Started.mk "clip.mp4")))))).
  vm_compute. discriminate.
Defined.

(** X19. While the page is not streaming, no event assigns anything to the
    image source: a start, retry, restart or mode-change timer or reply
    that comes in after the stream was stopped finds no image and opens
    nothing. *)
Theorem no_feed_without_streaming (w : Sys) (e : Event) :
  isStreaming (cam w) = false -> srcs (step w e) = srcs w.
Proof.
  destruct w as [c sl fl tm tr sr].
  destruct c as [str cs ld er conn cap lc csu rec rd lr rsu].
  cbn. intros ->.
  destruct e as [b|modeId| | | | | |n now r|n now]; cbn.
  - unfold run_cam, click, rendered, disabled, no_status. cbn.
    destruct b, ld, conn, cap, rec, cs; reflexivity.
  - destruct (Selector.select_disabled _ _); [reflexivity|].
    destruct (Selector.changeMode_begin _ _) as [[sl' q]|]; reflexivity.
  - destruct (Selector.refresh_disabled _ _); reflexivity.
  - reflexivity.
  - unfold durationTick. cbn. destruct rec; reflexivity.
  - reflexivity.
  - reflexivity.
  - destruct (fl !! n) as [p|] eqn:Hp; [|reflexivity].
    destruct p as [[[|b|b]| | |b| | | ]| |modes0 modeId b];
      destruct r as [r|r|r|r|r|r]; try reflexivity;
      destruct r as [|e|[body|]];
      unfold resume, run_cam, Selector.changeMode_resume; cbn;
      try destruct (recording body); cbn;
      repeat case_match; simplify_eq; cbn;
      try destruct b; rewrite ?andb_false_r;
      first [reflexivity | cbn in *; discriminate].
  - destruct (tm !! n) as [t|]; [|reflexivity].
    destruct t as [| | |b| |]; unfold run_cam; cbn; reflexivity.
Qed.

Lemma no_feed_without_streaming_witness :
  srcs (step stopped_page (Fire 0 6000)) = srcs stopped_page.
Proof.
  exact (no_feed_without_streaming stopped_page (Fire 0 6000) eq_refl).
Defined.

(** X20. The log of requests only grows, and by at most one request per
    event: no click, reply or timer sends two requests, and nothing ever
    takes a request back. *)
Theorem one_request_per_event (w : Sys) (e : Event) :
  exists q : list Request,
    transport (step w e) = transport w ++ q /\ (length q <= 1)%nat.
Proof.
  destruct w as [c sl fl tm tr sr].
  assert (H0 : exists q : list Request,
             tr = tr ++ q /\ (length q <= 1)%nat).
  { exists []. rewrite app_nil_r. split; [reflexivity|cbn; lia]. }
  assert (H1 : forall x, exists q : list Request,
             tr ++ [x] = tr ++ q /\ (length q <= 1)%nat).
  { intros x. exists [x]. split; [reflexivity|cbn; lia]. }
  destruct c as [str cs ld er conn cap lc csu rec rd lr rsu].
  destruct e as [b|modeId| | | | | |n now r|n now]; cbn.
  - unfold run_cam, click, rendered, disabled, no_status. cbn.
    destruct b, str, ld, conn, cap, rec, cs; cbn; auto.
  - destruct (Selector.select_disabled _ _); [cbn; auto|].
    destruct (Selector.changeMode_begin _ _) as [[sl' q]|]; cbn; auto.
  - destruct (Selector.refresh_disabled _ _); cbn; auto.
  - apply H1.
  - unfold durationTick. cbn. destruct rec; cbn; auto.
  - unfold imgRef_current, run_cam, handleImageError. cbn.
    destruct str; cbn; auto.
  - unfold imgRef_current. cbn. destruct str; cbn; auto.
  - destruct (fl !! n) as [p|] eqn:Hp; [|cbn; auto].
    destruct p as [[[|b|b]| | |b| | | ]| |modes0 modeId b];
      destruct r as [r|r|r|r|r|r]; try (cbn; auto; fail);
      destruct r as [|e|[body|]]; destruct str;
      unfold resume, run_cam, Selector.changeMode_resume; cbn;
      try destruct (recording body); cbn;
      repeat case_match; simplify_eq; cbn; try destruct b; cbn; auto.
  - destruct (tm !! n) as [t|]; [|cbn; auto].
    destruct t as [| | |b| |]; unfold run_cam; cbn;
      destruct str; try destruct b; cbn; auto.
Qed.

(** X21. Status polls are never held back, merged or cancelled: [n]
    polls that get no reply leave [n] more status requests in flight,
    whatever the page is doing, and change nothing else. *)
Theorem polls_pile_up (n : nat) (w : Sys) :
  run w (replicate n Poll)
  = mkSys (cam w) (sel w)
      (inflight w ++ replicate n (P_stream (K_checkStatus Nothing)))
      (timers w) (transport w ++ replicate n GET_status) (srcs w).
Proof.
  revert w. induction n as [|n IH]; intros [c sl fl tm tr sr].
  - cbn. rewrite !app_nil_r. reflexivity.
  - cbn [replicate]. unfold run in *. cbn [foldl]. rewrite IH. cbn.
    rewrite <- !app_assoc. reflexivity.
Qed.

Lemma lookup_snoc {A} (l : list A) (x : A) : (l ++ [x]) !! length l = Some x.
Proof. apply list_lookup_middle. reflexivity. Qed.

Lemma delete_snoc {A} (l : list A) (x : A) : delete (length l) (l ++ [x]) = l.
Proof. rewrite delete_middle. apply app_nil_r. Qed.

(** X22. Starting the stream, from the click to the follow-up check: with
    the Start Stream button enabled, the click sends the start request and
    sets the loading flag; the OK reply sets the streaming flag, clears the
    loading flag and sends nothing; the first timer assigns the stream URL
    once, stamped with the time it fires; the second timer sends exactly
    one status request.  Nothing else is sent, opened or left pending. *)
Theorem start_stream_flow
    (w : Sys) (body : option unit) (t0 t1 t2 : Z) :
  isStreaming (cam w) = false -> isLoading (cam w) = false ->
  isServerConnected (cam w) = true ->
  let w1 := step w (Click StartStream) in
  let w2 := step w1 (Response (length (inflight w)) t0 (R_plain (Ok body))) in
  let w3 := step w2 (Fire (length (timers w)) t1) in
  let w4 := step w3 (Fire (length (timers w)) t2) in
  (isLoading (cam w1) = true
   /\ transport w1 = transport w ++ [GET_start])
  /\ (isStreaming (cam w2) = true /\ isLoading (cam w2) = false
      /\ transport w2 = transport w1 /\ srcs w2 = srcs w)
  /\ (srcs w3 = srcs w ++ [StreamUrl t1] /\ transport w3 = transport w1)
  /\ w4 = mkSys (setIsStreaming true (setError None (cam w))) (sel w)
            (inflight w ++ [P_stream (K_checkStatus Nothing)]) (timers w)
            (transport w ++ [GET_start; GET_status])
            (srcs w ++ [StreamUrl t1]).
Proof.
  destruct w as [c sl fl tm tr sr].
  destruct c as [str cs ld er conn cap lc csu rec rd lr rsu].
  cbn. intros -> -> ->. cbn.
  unfold run_cam, click. cbn.
  rewrite !lookup_snoc, !delete_snoc. cbn.
  rewrite !lookup_snoc, !delete_snoc. cbn.
  rewrite !lookup_snoc, !delete_snoc. cbn.
  repeat split. unfold send, with_cam, with_timers. cbn.
  rewrite <- app_assoc. reflexivity.
Qed.

Lemma start_stream_flow_witness :
  let w := connected_page in
  let w1 := step w (Click StartStream) in
  let w2 := step w1 (Response 1 0 (R_plain (Ok None))) in
  let w3 := step w2 (Fire 0 1000) in
  let w4 := step w3 (Fire 0 3000) in
  (isLoading (cam w1) = true
   /\ transport w1 = transport w ++ [GET_start])
  /\ (isStreaming (cam w2) = true /\ isLoading (cam w2) = false
      /\ transport w2 = transport w1 /\ srcs w2 = srcs w)
  /\ (srcs w3 = srcs w ++ [StreamUrl 1000] /\ transport w3 = transport w1)
  /\ w4 = mkSys (setIsStreaming true (setError None (cam w))) (sel w)
            (inflight w ++ [P_stream (K_checkStatus Nothing)]) (timers w)
            (transport w ++ [GET_start; GET_status])
            (srcs w ++ [StreamUrl 1000]).
Proof.
  exact (start_stream_flow connected_page None 0 1000 3000
           eq_refl eq_refl eq_refl).
Defined.

(** X23. Stopping the stream: with the Stop Stream button enabled, the
    click sends the stop request, and the OK reply clears the streaming
    flag and empties the image source.  Recording is not stopped, pending
    timers are not cancelled, and a failed reply leaves the page
    streaming. *)
Theorem stop_stream_flow (w : Sys) (r : Reply unit) (t0 : Z) :
  isStreaming (cam w) = true -> isLoading (cam w) = false ->
  let w1 := step w (Click StopStream) in
  let w2 := step w1 (Response (length (inflight w)) t0 (R_plain r)) in
  transport w2 = transport w ++ [GET_stop]
  /\ inflight w2 = inflight w
  /\ timers w2 = timers w
  /\ isLoading (cam w2) = false
  /\ isRecording (cam w2) = isRecording (cam w)
  /\ recordingDuration (cam w2) = recordingDuration (cam w)
  /\ isStreaming (cam w2) = transport_failed r
  /\ srcs w2 = srcs w ++ (if transport_failed r then [] else [EmptySrc])
  /\ (error (cam w2) = None <-> transport_failed r = false).
Proof.
  destruct w as [c sl fl tm tr sr].
  destruct c as [str cs ld er conn cap lc csu rec rd lr rsu].
  cbn. intros -> ->. cbn.
  unfold run_cam, click. cbn.
  rewrite !lookup_snoc, !delete_snoc.
  destruct r as [|e|body]; cbn; rewrite ?app_nil_r;
    repeat split; intros; try discriminate; reflexivity.
Qed.

Lemma stop_stream_flow_witness :
  let w := streaming_page in
  let w1 := step w (Click StopStream) in
  let w2 := step w1 (Response 1 4000 (R_plain (Ok None))) in
  transport w2 = transport w ++ [GET_stop]
  /\ inflight w2 = inflight w
  /\ timers w2 = timers w
  /\ isLoading (cam w2) = false
  /\ isRecording (cam w2) = isRecording (cam w)
  /\ recordingDuration (cam w2) = recordingDuration (cam w)
  /\ isStreaming (cam w2) = false
  /\ srcs w2 = srcs w ++ [EmptySrc]
  /\ (error (cam w2) = None <-> false = false).
Proof.
  exact (stop_stream_flow streaming_page (Ok None) 4000 eq_refl eq_refl).
Defined.






(** X26. Recording, from start to stop: with the Start Recording button
    enabled, its click and an OK reply set the recording flag and reset
    the duration; the Stop Recording click and an OK reply clear the flag,
    reset the duration and keep the saved recording.  Two requests are
    sent, two message timers are left pending, and the streaming flag,
    the loading flag and the image source are untouched. *)
Theorem recording_flow
    (w : Sys) (x : Started.t) (y : Stopped.t) (t0 t1 : Z) :
  isRecording (cam w) = false -> isServerConnected (cam w) = true ->
  cameraStatus (cam w) <> None ->
  let w1 := step w (Click StartRecording) in
  let w2 :=
    step w1 (Response (length (inflight w)) t0 (R_started (Ok (Some x)))) in
  let w3 := step w2 (Click StopRecording) in
  let w4 :=
    step w3 (Response (length (inflight w)) t1 (R_stopped (Ok (Some y)))) in
  (isRecording (cam w2) = true /\ recordingDuration (cam w2) = 0
   /\ recordingSuccess (cam w2)
      = Some ("Recording started: " ++ Started.filename x)%string)
  /\ (isRecording (cam w4) = false /\ recordingDuration (cam w4) = 0
      /\ lastRecording (cam w4) = Some y
      /\ error (cam w4) = None)
  /\ transport w4
     = transport w ++ [POST_recording_start; POST_recording_stop]
  /\ inflight w4 = inflight w
  /\ timers w4
     = timers w ++ [T_clearRecordingSuccess; T_clearRecordingSuccess]
  /\ isStreaming (cam w4) = isStreaming (cam w)
  /\ isLoading (cam w4) = isLoading (cam w)
  /\ srcs w4 = srcs w.
Proof.
  destruct w as [c sl fl tm tr sr].
  destruct c as [str cs ld er conn cap lc csu rec rd lr rsu].
  cbn. intros -> -> Hcs. destruct cs as [st|]; [clear Hcs|contradiction].
  unfold run_cam, click. cbn.
  rewrite !lookup_snoc, !delete_snoc. cbn.
  rewrite !lookup_snoc, !delete_snoc. cbn.
  rewrite <- !app_assoc. repeat split.
Qed.

Lemma recording_flow_witness :
  let w := connected_page in
  let x := Started.mk "clip.mp4" in
  let y := Stopped.mk "clip.mp4" "/recordings/clip.mp4" 12 in
  let w1 := step w (Click StartRecording) in
  let w2 := step w1 (Response 1 0 (R_started (Ok (Some x)))) in
  let w3 := step w2 (Click StopRecording) in
  let w4 := step w3 (Response 1 12 (R_stopped (Ok (Some y)))) in
  (isRecording (cam w2) = true /\ recordingDuration (cam w2) = 0
   /\ recordingSuccess (cam w2) = Some "Recording started: clip.mp4")
  /\ (isRecording (cam w4) = false /\ recordingDuration (cam w4) = 0
      /\ lastRecording (cam w4) = Some y
      /\ error (cam w4) = None)
  /\ transport w4
     = transport w ++ [POST_recording_start; POST_recording_stop]
  /\ inflight w4 = inflight w
  /\ timers w4
     = timers w ++ [T_clearRecordingSuccess; T_clearRecordingSuccess]
  /\ isStreaming (cam w4) = isStreaming (cam w)
  /\ isLoading (cam w4) = isLoading (cam w)
  /\ srcs w4 = srcs w.
Proof.
  apply (recording_flow connected_page (Started.mk "clip.mp4")
           (Stopped.mk "clip.mp4" "/recordings/clip.mp4" 12) 0 12
           eq_refl eq_refl).
  discriminate.
Defined.

(** X27. Taking a picture, from the click to the fading of the message:
    with the Take Picture button enabled, the click sends the capture
    request and sets the capturing flag; an OK reply with a body stores
    the picture as the last captured image, shows the message with its
    file name and clears the flag; the timer then removes the message and
    keeps the picture. *)
Theorem capture_flow (w : Sys) (x : Captured.t) (t0 t1 : Z) :
  disabled TakePicture (cam w) = false ->
  let w1 := step w (Click TakePicture) in
  let w2 :=
    step w1 (Response (length (inflight w)) t0 (R_captured (Ok (Some x)))) in
  let w3 := step w2 (Fire (length (timers w)) t1) in
  (isCapturing (cam w1) = true
   /\ transport w1 = transport w ++ [POST_capture])
  /\ (isCapturing (cam w2) = false
      /\ lastCapturedImage (cam w2) = Some x
      /\ captureSuccess (cam w2)
         = Some ("Picture captured: " ++ Captured.filename x)%string
      /\ error (cam w2) = None)
  /\ (captureSuccess (cam w3) = None
      /\ lastCapturedImage (cam w3) = Some x
      /\ transport w3 = transport w1
      /\ inflight w3 = inflight w
      /\ timers w3 = timers w
      /\ srcs w3 = srcs w).
Proof.
  destruct w as [c sl fl tm tr sr].
  destruct c as [str cs ld er conn cap lc csu rec rd lr rsu].
  unfold disabled, no_status. cbn. intros Hd.
  destruct cap, conn, cs as [st|], str; try discriminate Hd. clear Hd.
  unfold run_cam, click. cbn.
  rewrite !lookup_snoc, !delete_snoc. cbn.
  rewrite !lookup_snoc, !delete_snoc. cbn.
  repeat split.
Qed.

Lemma capture_flow_witness :
  let w := streaming_page in
  let x := Captured.mk "shot.jpg" "/pictures/shot.jpg" "20250101_120000" in
  let w1 := step w (Click TakePicture) in
  let w2 := step w1 (Response 1 0 (R_captured (Ok (Some x)))) in
  let w3 := step w2 (Fire 0 5000) in
  (isCapturing (cam w1) = true
   /\ transport w1 = transport w ++ [POST_capture])
  /\ (isCapturing (cam w2) = false
      /\ lastCapturedImage (cam w2) = Some x
      /\ captureSuccess (cam w2) = Some "Picture captured: shot.jpg"
      /\ error (cam w2) = None)
  /\ (captureSuccess (cam w3) = None
      /\ lastCapturedImage (cam w3) = Some x
      /\ transport w3 = transport w1
      /\ inflight w3 = inflight w
      /\ timers w3 = timers w
      /\ srcs w3 = srcs w).
Proof.
  exact (capture_flow streaming_page
           (Captured.mk "shot.jpg" "/pictures/shot.jpg" "20250101_120000")
           0 5000 eq_refl).
Defined.

End FlowFacts.
